(** * TheNewsAPI MCP server: gateway (thenewsapi_client.py) and tool facade (server.py)

    A shallow embedding of the two Python modules

      - [thenewsapi_mcp/thenewsapi_client.py]  (class [TheNewsAPIClient])
      - [thenewsapi_mcp/server.py]             (tools [search], [get_article])

    Python values are embedded in one dynamically typed universe [pyval];
    exceptions are an error monad; the calls made through [requests.get] are
    recorded in a log that is threaded through every gateway operation, and the
    upstream service is an arbitrary function from requests to replies. *)

From Stdlib Require Import String Ascii ZArith NArith List Bool Lia.
From Stdlib Require Import Floats.SpecFloat.
Import ListNotations.

Set Warnings "-register-all".
Local Open Scope Z_scope.

(* ------------------------------------------------------------------------- *)
(** ** Python strings *)
(* ------------------------------------------------------------------------- *)

(** A Python [str] is a sequence of Unicode code points. *)
Definition codepoint := N.
Definition pystr := list codepoint.

(** ASCII literals of the source, as code point sequences. *)
Definition str (s : string) : pystr := map N_of_ascii (list_ascii_of_string s).
Arguments str s%_string.

Fixpoint pystr_eqb (a b : pystr) : bool :=
  match a, b with
  | [], [] => true
  | x :: a', y :: b' => (x =? y)%N && pystr_eqb a' b'
  | _, _ => false
  end.

(** [len(s)] *)
Definition len (s : pystr) : Z := Z.of_nat (length s).

(** The characters removed by [str.strip()] without argument: the code points
    for which [str.isspace()] holds. *)
Definition is_whitespace (c : codepoint) : bool :=
  ((0x09 <=? c) && (c <=? 0x0D) ||
   (0x1C <=? c) && (c <=? 0x20) ||
   (c =? 0x85) || (c =? 0xA0) || (c =? 0x1680) ||
   (0x2000 <=? c) && (c <=? 0x200A) ||
   (c =? 0x2028) || (c =? 0x2029) || (c =? 0x202F) || (c =? 0x205F) ||
   (c =? 0x3000))%N.

Fixpoint lstrip (s : pystr) : pystr :=
  match s with
  | [] => []
  | c :: s' => if is_whitespace c then lstrip s' else s
  end.

Definition rstrip (s : pystr) : pystr := rev (lstrip (rev s)).

(** [s.strip()] *)
Definition strip (s : pystr) : pystr := rstrip (lstrip s).

(** [s[:n]] for a non-negative constant [n] *)
Definition slice_to (n : nat) (s : pystr) : pystr := firstn n s.

Fixpoint is_prefix (p s : pystr) : bool :=
  match p, s with
  | [], _ => true
  | x :: p', y :: s' => (x =? y)%N && is_prefix p' s'
  | _ :: _, [] => false
  end.

(** [p in s] for two strings: substring test *)
Fixpoint is_substring (p s : pystr) : bool :=
  match s with
  | [] => is_prefix p []
  | _ :: s' => is_prefix p s || is_substring p s'
  end.

(* ------------------------------------------------------------------------- *)
(** ** Python values *)
(* ------------------------------------------------------------------------- *)

(** The values that flow through the two modules: what [response.json()]
    produces, the parameter dictionaries, the articles and the envelopes.
    A [dict] is kept as an association list in insertion order; a lookup takes
    the first binding of the key. *)
Inductive pyval : Type :=
| PNone
| PBool (b : bool)
| PInt (z : Z)
| PFloat (f : spec_float)
| PStr (s : pystr)
| PList (l : list pyval)
| PDict (d : list (pystr * pyval)).

Definition pydict := list (pystr * pyval).

(** Truth value of an object, as tested by [if x], [not x] and [x if c else y]. *)
Definition truthy (v : pyval) : bool :=
  match v with
  | PNone => false
  | PBool b => b
  | PInt z => negb (z =? 0)
  | PFloat (S754_zero _) => false
  | PFloat _ => true
  | PStr s => negb (pystr_eqb s [])
  | PList l => match l with [] => false | _ => true end
  | PDict d => match d with [] => false | _ => true end
  end.

Fixpoint dict_lookup (k : pystr) (d : pydict) : option pyval :=
  match d with
  | [] => None
  | (k', v) :: d' => if pystr_eqb k k' then Some v else dict_lookup k d'
  end.

Definition dict_mem (k : pystr) (d : pydict) : bool :=
  match dict_lookup k d with Some _ => true | None => false end.

(** [d[k] = v]: overwrite the binding in place, or add it at the end. *)
Fixpoint dict_set (k : pystr) (v : pyval) (d : pydict) : pydict :=
  match d with
  | [] => [(k, v)]
  | (k', v') :: d' =>
      if pystr_eqb k k' then (k', v) :: d' else (k', v') :: dict_set k v d'
  end.

Definition dict_keys (d : pydict) : list pystr := map fst d.

(* ------------------------------------------------------------------------- *)
(** ** Exceptions *)
(* ------------------------------------------------------------------------- *)

(** The exceptions the two modules can meet. *)
Inductive exn : Type :=
| Timeout            (* requests.exceptions.Timeout *)
| ConnectionError    (* requests.exceptions.ConnectionError *)
| HTTPError          (* requests.exceptions.HTTPError, from raise_for_status *)
| RequestException   (* any other requests.exceptions.RequestException *)
| JSONDecodeError    (* from response.json() on a body that is not JSON *)
| KeyError
| TypeError
| AttributeError.

(** The classes named in the [except] clauses. *)
Inductive exn_class : Type :=
| CTimeout | CConnectionError | CHTTPError | CRequestException
| CValueError | CException.

(** [isinstance(e, c)], following the class hierarchy of [requests] and of the
    built-in exceptions. *)
Definition isinstance (e : exn) (c : exn_class) : bool :=
  match c, e with
  | CException, _ => true
  | CTimeout, Timeout => true
  | CConnectionError, ConnectionError => true
  | CHTTPError, HTTPError => true
  | CRequestException,
    (Timeout | ConnectionError | HTTPError | RequestException | JSONDecodeError) => true
  | CValueError, JSONDecodeError => true
  | _, _ => false
  end.

Inductive result (A : Type) : Type :=
| Ret (a : A)
| Raise (e : exn).
Arguments Ret {A} a.
Arguments Raise {A} e.

Definition rbind {A B} (r : result A) (k : A -> result B) : result B :=
  match r with
  | Ret a => k a
  | Raise e => Raise e
  end.

Declare Scope result_scope.
Delimit Scope result_scope with R.
Notation "x <- e ;; k" := (rbind e (fun x => k))
  (at level 61, e at next level, right associativity) : result_scope.
Notation "e ;; k" := (rbind e (fun _ => k))
  (at level 61, right associativity) : result_scope.

(* ------------------------------------------------------------------------- *)
(** ** Operations on dynamically typed values *)
(* ------------------------------------------------------------------------- *)

(** [k in x] *)
Definition py_in (k : pystr) (x : pyval) : result bool :=
  match x with
  | PDict d => Ret (dict_mem k d)
  | PList l =>
      Ret (existsb (fun v => match v with PStr s => pystr_eqb k s | _ => false end) l)
  | PStr s => Ret (is_substring k s)
  | _ => Raise TypeError
  end.

(** [x[k]] with a string key *)
Definition py_getitem (x : pyval) (k : pystr) : result pyval :=
  match x with
  | PDict d =>
      match dict_lookup k d with
      | Some v => Ret v
      | None => Raise KeyError
      end
  | _ => Raise TypeError
  end.

(** [x.get(k, default)] *)
Definition py_get (x : pyval) (k : pystr) (default : pyval) : result pyval :=
  match x with
  | PDict d =>
      Ret (match dict_lookup k d with
           | Some v => v
           | None => default
           end)
  | _ => Raise AttributeError
  end.

(** [x.items()] *)
Definition py_items (x : pyval) : result (list (pystr * pyval)) :=
  match x with
  | PDict d => Ret d
  | _ => Raise AttributeError
  end.

(** [len(x)] *)
Definition py_len (x : pyval) : result Z :=
  match x with
  | PStr s => Ret (len s)
  | PList l => Ret (Z.of_nat (length l))
  | PDict d => Ret (Z.of_nat (length d))
  | _ => Raise TypeError
  end.

(** The sequence a [for item in x] loop runs over. *)
Definition py_iter (x : pyval) : result (list pyval) :=
  match x with
  | PList l => Ret l
  | PDict d => Ret (map (fun kv => PStr (fst kv)) d)
  | PStr s => Ret (map (fun c => PStr [c]) s)
  | _ => Raise TypeError
  end.

(* ------------------------------------------------------------------------- *)
(** ** The HTTP exchange *)
(* ------------------------------------------------------------------------- *)

(** One call of [requests.get(api_url, params=params)]. *)
Record request : Type := mk_request {
  req_url : pystr;
  req_params : pydict
}.

(** What the code can observe of a [requests.Response]: its status code, and
    the value [response.json()] decodes from the body ([None] when the body is
    not JSON). *)
Record response : Type := mk_response {
  status_code : Z;
  body : option pyval
}.

(** The upstream either makes [requests.get] raise, or answers. *)
Inductive http_reply : Type :=
| Fails (e : exn)
| Replies (r : response).

(** Gateway and facade operations: they may raise, and they extend the log of
    the requests sent so far.  The log survives an exception, so that a handler
    runs after the request that failed. *)
Definition M (A : Type) : Type := list request -> result A * list request.

Definition ret {A} (a : A) : M A := fun log => (Ret a, log).

Definition bind {A B} (m : M A) (k : A -> M B) : M B :=
  fun log =>
    match m log with
    | (Ret a, log') => k a log'
    | (Raise e, log') => (Raise e, log')
    end.

Definition lift {A} (r : result A) : M A := fun log => (r, log).

Declare Scope gateway_scope.
Delimit Scope gateway_scope with M.
Notation "x <- e ;; k" := (bind e (fun x => k))
  (at level 61, e at next level, right associativity) : gateway_scope.

(** [try: body except c1: h1 except c2: h2 ...]: the first clause whose class
    the exception is an instance of runs; without one the exception goes on. *)
Fixpoint dispatch {A} (handlers : list (exn_class * M A)) (e : exn) : M A :=
  match handlers with
  | [] => lift (Raise e)
  | (c, h) :: handlers' => if isinstance e c then h else dispatch handlers' e
  end.

Definition try_except {A} (body : M A) (handlers : list (exn_class * M A)) : M A :=
  fun log =>
    match body log with
    | (Ret a, log') => (Ret a, log')
    | (Raise e, log') => dispatch handlers e log'
    end.

(** [response.raise_for_status()] of the [requests] library: an [HTTPError]
    when [400 <= status_code < 500] (client error) or
    [500 <= status_code < 600] (server error), nothing otherwise. *)
Definition raise_for_status (r : response) : result unit :=
  if (400 <=? status_code r) && (status_code r <? 600) then Raise HTTPError
  else Ret tt.

(** [response.json()] *)
Definition response_json (r : response) : result pyval :=
  match body r with
  | Some v => Ret v
  | None => Raise JSONDecodeError
  end.

(* ------------------------------------------------------------------------- *)
(** ** thenewsapi_client.py *)
(* ------------------------------------------------------------------------- *)

Inductive NewsCategory : Type :=
| general | science | sports | business | health
| entertainment | tech | politics | food | travel.

(** [NewsCategory] is a [str] enumeration: the value of each member. *)
Definition category_value (c : NewsCategory) : pystr :=
  match c with
  | general => str "general"
  | science => str "science"
  | sports => str "sports"
  | business => str "business"
  | health => str "health"
  | entertainment => str "entertainment"
  | tech => str "tech"
  | politics => str "politics"
  | food => str "food"
  | travel => str "travel"
  end.

(** An argument of type [Optional[List[NewsCategory]]] as a Python value. *)
Definition py_categories (categories : option (list NewsCategory)) : pyval :=
  match categories with
  | None => PNone
  | Some cs => PList (map (fun c => PStr (category_value c)) cs)
  end.

Record TheNewsAPIClient : Type := mk_client {
  access_token : pyval;
  domains : list pystr;
  languages : list pystr
}.

(** [TheNewsAPIClient.__init__] *)
Definition new_client (access_token : pyval) : TheNewsAPIClient :=
  {| access_token := access_token;
     domains := [str "nytimes.com"; str "bbc.com"; str "apnews.com"];
     languages := [str "en"] |}.

(** The limit after the [if limit <= 0 ... elif limit > 3 ...] of
    [search_news] and [search_similar_news_by_uuid]. *)
Definition clamp_limit (limit : Z) : Z :=
  if limit <=? 0 then 1
  else if 3 <? limit then 3
  else limit.

(** The search text after [query.strip()] and the truncation of lines 43-49. *)
Definition search_text (query : pystr) : pystr :=
  let trimmed_query := strip query in
  if 300 <? len trimmed_query then slice_to 100 trimmed_query
  else trimmed_query.

(** The dictionary literal of lines 105-113. *)
Definition search_article (title item : pyval) : result pyval :=
  (description <- py_get item (str "description") (PStr (str "")) ;;
   snippet <- py_get item (str "snippet") (PStr (str "")) ;;
   uuid <- py_get item (str "uuid") (PInt 0) ;;
   published_at <- py_get item (str "published_at") (PStr (str "")) ;;
   url <- py_get item (str "url") (PStr (str "")) ;;
   source <- py_get item (str "source") (PInt 0) ;;
   Ret (PDict [ (str "title", title);
                (str "description", description);
                (str "snippet", snippet);
                (str "uuid", uuid);
                (str "published_at", published_at);
                (str "url", url);
                (str "source", source) ]))%R.

(** The dictionary literal of lines 234-242. *)
Definition similar_article (title item : pyval) : result pyval :=
  (description <- py_get item (str "description") (PStr (str "")) ;;
   snippet <- py_get item (str "snippet") (PStr (str "")) ;;
   uuid <- py_get item (str "uuid") (PInt 0) ;;
   source <- py_get item (str "source") (PInt 0) ;;
   published_at <- py_get item (str "published_at") (PStr (str "")) ;;
   url <- py_get item (str "url") (PStr (str "")) ;;
   Ret (PDict [ (str "title", title);
                (str "description", description);
                (str "snippet", snippet);
                (str "uuid", uuid);
                (str "source", source);
                (str "published_at", published_at);
                (str "url", url) ]))%R.

(** The loop [for item in search_results: ...] of lines 97-116 and 226-245,
    which differ only in the dictionary literal [article]; [results] is the
    list the loop appends to. *)
Fixpoint collect_articles (article : pyval -> pyval -> result pyval)
    (items : list pyval) (results : list pyval) : result (list pyval) :=
  match items with
  | [] => Ret results
  | item :: rest =>
      (title <- py_get item (str "title") PNone ;;
       if negb (truthy title) then collect_articles article rest results
       else
         a <- article title item ;;
         collect_articles article rest (results ++ [a]))%R
  end.

(** Lines 77-84: the arguments of [logger.error] are evaluated, then [[]] is
    returned. *)
Definition report_api_error {A} (data : pyval) (empty : A) : result A :=
  (error_info <- py_getitem data (str "error") ;;
   _ <- py_get error_info (str "code") (PStr (str "unknown")) ;;
   _ <- py_get error_info (str "info") (PStr (str "No details")) ;;
   Ret empty)%R.

(** Lines 86-88: [for warning_type, warning_body in data["warnings"].items()]. *)
Definition log_warnings (data : pyval) : result unit :=
  (has_warnings <- py_in (str "warnings") data ;;
   if has_warnings then
     warnings <- py_getitem data (str "warnings") ;;
     _ <- py_items warnings ;;
     Ret tt
   else Ret tt)%R.

(** The [except] clauses of the three operations; each logs and returns the
    same [empty] value. *)
Definition handlers {A} (empty : A) : list (exn_class * M A) :=
  [ (CTimeout, ret empty);
    (CConnectionError, ret empty);
    (CHTTPError, ret empty);
    (CRequestException, ret empty);
    (CValueError, ret empty);
    (CException, ret empty) ].

Definition search_params (self : TheNewsAPIClient) (trimmed_query : pystr)
    (limit : Z) (categories : option (list NewsCategory)) : pydict :=
  let params :=
    [ (str "api_token", access_token self);
      (str "search", PStr trimmed_query);
      (str "limit", PInt limit);
      (str "domains", PList (map PStr (domains self)));
      (str "language", PList (map PStr (languages self))) ] in
  if truthy (py_categories categories)
  then dict_set (str "categories") (py_categories categories) params
  else params.

(** The comprehension [{key: data[key] for key in keys}]. *)
Fixpoint pick_keys (data : pyval) (keys : list pystr) : result pydict :=
  match keys with
  | [] => Ret []
  | key :: keys' =>
      (v <- py_getitem data key ;;
       rest <- pick_keys data keys' ;;
       Ret ((key, v) :: rest))%R
  end.

(** [keys] of line 164. *)
Definition article_keys : list pystr :=
  [str "uuid"; str "title"; str "snippet"; str "description"; str "url"; str "source"].

(** [search_news], lines 74-116: the part of the [try] block that follows
    [requests.get]. *)
Definition search_news_response (response : response) : result (list pyval) :=
  (_ <- raise_for_status response ;;
   data <- response_json response ;;
   has_error <- py_in (str "error") data ;;
   if has_error then report_api_error data []
   else
     _ <- log_warnings data ;;
     search_results <- py_get data (str "data") (PList []) ;;
     _ <- py_len search_results ;;
     items <- py_iter search_results ;;
     collect_articles search_article items [])%R.

(** [search_news_by_uuid], lines 148-166. *)
Definition search_news_by_uuid_response (response : response) : result pyval :=
  (_ <- raise_for_status response ;;
   data <- response_json response ;;
   has_error <- py_in (str "error") data ;;
   if has_error then report_api_error data (PList [])
   else
     _ <- log_warnings data ;;
     result <- pick_keys data article_keys ;;
     Ret (PDict result))%R.

(** [search_similar_news_by_uuid], lines 208-245. *)
Definition search_similar_news_by_uuid_response (response : response)
    : result (list pyval) :=
  (_ <- raise_for_status response ;;
   data <- response_json response ;;
   has_error <- py_in (str "error") data ;;
   if has_error then report_api_error data []
   else
     _ <- log_warnings data ;;
     search_results <- py_get data (str "data") (PList []) ;;
     items <- py_iter search_results ;;
     collect_articles similar_article items [])%R.

Section Gateway.

(** The upstream service: what each request is answered with. *)
Variable upstream : request -> http_reply.

(** [requests.get(api_url, params=params)] *)
Definition requests_get (api_url : pystr) (params : pydict) : M response :=
  fun log =>
    let rq := {| req_url := api_url; req_params := params |} in
    (match upstream rq with
     | Fails e => Raise e
     | Replies r => Ret r
     end, log ++ [rq]).

(** [TheNewsAPIClient.search_news] *)
Definition search_news (self : TheNewsAPIClient) (query : pystr)
    (categories : option (list NewsCategory)) (limit : Z) : M (list pyval) :=
  if negb (truthy (PStr query)) || negb (truthy (PStr (strip query))) then
    ret []
  else
    let trimmed_query := search_text query in
    let limit := clamp_limit limit in
    let api_url := str "https://api.thenewsapi.com/v1/news/all" in
    let params := search_params self trimmed_query limit categories in
    try_except
      (response <- requests_get api_url params ;;
       lift (search_news_response response))%M
      (handlers []).

(** [TheNewsAPIClient.search_news_by_uuid]; [str(uuid)] of a string is the
    string. *)
Definition search_news_by_uuid (self : TheNewsAPIClient) (uuid : pystr) : M pyval :=
  let api_url := str "https://api.thenewsapi.com/v1/news/uuid/" ++ uuid in
  let params := [ (str "api_token", access_token self) ] in
  try_except
    (response <- requests_get api_url params ;;
     lift (search_news_by_uuid_response response))%M
    (handlers (PList [])).

Definition similar_params (self : TheNewsAPIClient) (limit : Z)
    (categories : option (list NewsCategory)) : pydict :=
  [ (str "api_token", access_token self);
    (str "limit", PInt limit);
    (str "categories", py_categories categories);
    (str "domains", PList (map PStr (domains self)));
    (str "language", PList (map PStr (languages self))) ].

(** [TheNewsAPIClient.search_similar_news_by_uuid] *)
Definition search_similar_news_by_uuid (self : TheNewsAPIClient) (uuid : pystr)
    (limit : Z) (categories : option (list NewsCategory)) : M (list pyval) :=
  let limit := clamp_limit limit in
  let api_url := str "https://api.thenewsapi.com/v1/news/similar/" ++ uuid in
  let params := similar_params self limit categories in
  try_except
    (response <- requests_get api_url params ;;
     lift (search_similar_news_by_uuid_response response))%M
    (handlers []).

End Gateway.

(* ------------------------------------------------------------------------- *)
(** ** server.py *)
(* ------------------------------------------------------------------------- *)

(** The two methods of the client object that the tools call. *)
Record NewsGateway : Type := mk_gateway {
  client_search_news :
    pystr -> option (list NewsCategory) -> Z -> M (list pyval);
  client_search_news_by_uuid : pystr -> M pyval
}.

(** [validated_limit] of lines 43-49. *)
Definition validated_limit (limit : Z) : Z :=
  if limit <=? 0 then 1
  else if 3 <? limit then 3
  else limit.

Definition no_results_message : pystr :=
  str "No search results found. This could indicate connectivity issues, "
  ++ str "API errors, or simply no matching articles.".

(** The envelope [search] builds from the list the gateway returned,
    lines 52-66. *)
Definition search_response (query : pystr) (results : list pyval) : pyval :=
  let status :=
    if truthy (PList results) then str "success" else str "no_results" in
  let response :=
    [ (str "query", PStr query);
      (str "results", PList results);
      (str "status", PStr status);
      (str "count", PInt (Z.of_nat (length results))) ] in
  let response :=
    if negb (truthy (PList results))
    then dict_set (str "message") (PStr no_results_message) response
    else response in
  PDict response.

(** The envelope [get_article] builds from what the gateway returned,
    lines 91-104. *)
Definition get_article_response (uuid : pystr) (result : pyval) : pyval :=
  let status :=
    if truthy result then str "success" else str "no_results" in
  let response :=
    [ (str "uuid", PStr uuid);
      (str "result", result);
      (str "status", PStr status) ] in
  let response :=
    if negb (truthy result)
    then dict_set (str "message") (PStr no_results_message) response
    else response in
  PDict response.

Section ToolFacade.

Variable thenewsapi_client : NewsGateway.

(** The tool [search] *)
Definition search (query : pystr) (limit : Z)
    (categories : option (list NewsCategory)) : M pyval :=
  if negb (truthy (PStr query)) || negb (truthy (PStr (strip query))) then
    ret (PDict [ (str "query", PStr query);
                 (str "results", PList []);
                 (str "status", PStr (str "error"));
                 (str "message", PStr (str "Empty search query provided")) ])
  else
    (results <- client_search_news thenewsapi_client query categories
                  (validated_limit limit) ;;
     ret (search_response query results))%M.

(** The tool [get_article] *)
Definition get_article (uuid : pystr) : M pyval :=
  if negb (truthy (PStr uuid)) || negb (truthy (PStr (strip uuid))) then
    ret (PDict [ (str "uuid", PStr uuid);
                 (str "results", PList []);
                 (str "status", PStr (str "error"));
                 (str "message", PStr (str "Empty search query provided")) ])
  else
    (result <- client_search_news_by_uuid thenewsapi_client uuid ;;
     ret (get_article_response uuid result))%M.

End ToolFacade.

(** The tools registered on the server returned by [create_server]. *)
Record FastMCP : Type := mk_server {
  tool_search : pystr -> Z -> option (list NewsCategory) -> M pyval;
  tool_get_article : pystr -> M pyval
}.

(** The client object built on line 19 of server.py. *)
Definition the_client (upstream : request -> http_reply) (access_token : pyval)
    : NewsGateway :=
  let self := new_client access_token in
  {| client_search_news := search_news upstream self;
     client_search_news_by_uuid := search_news_by_uuid upstream self |}.

(** [create_server(access_token)] *)
Definition create_server (upstream : request -> http_reply) (access_token : pyval)
    : FastMCP :=
  let thenewsapi_client := the_client upstream access_token in
  {| tool_search := search thenewsapi_client;
     tool_get_article := get_article thenewsapi_client |}.

(* ------------------------------------------------------------------------- *)
(** ** Vocabulary of the specification *)
(* ------------------------------------------------------------------------- *)

(** A query or identifier that is empty or made of whitespace only. *)
Definition blank (s : pystr) : bool := forallb is_whitespace s.

(** The value and the requests sent by a computation started on an empty log. *)
Definition value_of {A} (m : M A) : result A := fst (m []).
Definition calls_of {A} (m : M A) : list request := snd (m []).

(** A field of an envelope, an article or a parameter dictionary. *)
Definition field (k : string) (v : pyval) : option pyval :=
  match v with
  | PDict d => dict_lookup (str k) d
  | _ => None
  end.

(** An upstream item that is a JSON object. *)
Definition is_object (v : pyval) : bool :=
  match v with PDict _ => true | _ => false end.

(** An upstream item that carries a non-empty title: it has a [title] whose
    value is not one of the empty values [null], [false], [0], [""], [[]], [{}]. *)
Definition carries_title (item : pyval) : bool :=
  match field "title" item with
  | Some title => truthy title
  | None => false
  end.

(** A status code outside 200..299. *)
Definition non_2xx (r : response) : Prop :=
  status_code r < 200 \/ 300 <= status_code r.

(** A status code among the client and server errors, 400..599. *)
Definition error_status (r : response) : Prop :=
  400 <= status_code r < 600.

(** The request each gateway operation sends. *)
Definition search_request (self : TheNewsAPIClient) (query : pystr)
    (categories : option (list NewsCategory)) (limit : Z) : request :=
  {| req_url := str "https://api.thenewsapi.com/v1/news/all";
     req_params :=
       search_params self (search_text query) (clamp_limit limit) categories |}.

Definition uuid_request (self : TheNewsAPIClient) (uuid : pystr) : request :=
  {| req_url := str "https://api.thenewsapi.com/v1/news/uuid/" ++ uuid;
     req_params := [ (str "api_token", access_token self) ] |}.

Definition similar_request (self : TheNewsAPIClient) (uuid : pystr)
    (limit : Z) (categories : option (list NewsCategory)) : request :=
  {| req_url := str "https://api.thenewsapi.com/v1/news/similar/" ++ uuid;
     req_params := similar_params self (clamp_limit limit) categories |}.

(** A parameter of a request. *)
Definition param (k : string) (rq : request) : option pyval :=
  dict_lookup (str k) (req_params rq).

(** What a [try] block whose handlers all return [empty] evaluates to. *)
Definition recover {A} (empty : A) (r : result A) : A :=
  match r with
  | Ret a => a
  | Raise _ => empty
  end.

(** What an operation reads from a reply. *)
Definition read_reply {A} (read : response -> result A) (reply : http_reply)
    : result A :=
  match reply with
  | Fails e => Raise e
  | Replies r => read r
  end.

(** Transport-level failures: [requests.get] raises (timeout, connection
    error, any other exception); the status is an error status; the body is
    not JSON. *)
Inductive transport_failure : http_reply -> Prop :=
| tf_raises (e : exn) : transport_failure (Fails e)
| tf_error_status (r : response) :
    error_status r -> transport_failure (Replies r)
| tf_not_json (r : response) :
    body r = None -> transport_failure (Replies r).

(** The same with "non-2xx" for the status, as the specification words it. *)
Inductive transport_failure_non_2xx : http_reply -> Prop :=
| tf2_raises (e : exn) : transport_failure_non_2xx (Fails e)
| tf2_status (r : response) :
    non_2xx r -> transport_failure_non_2xx (Replies r)
| tf2_not_json (r : response) :
    body r = None -> transport_failure_non_2xx (Replies r).

(** A reply whose JSON payload carries an [error] field. *)
Definition reports_error (reply : http_reply) : Prop :=
  exists r d,
    reply = Replies r /\ body r = Some (PDict d) /\ dict_mem (str "error") d = true.

(** A successful reply whose result array [items] reaches the mapping loop:
    no error status, a JSON object without [error], whose [warnings], when
    present, is an object, and whose [data] is the array [items]. *)
Definition delivers (reply : http_reply) (items : list pyval) : Prop :=
  exists r d,
    reply = Replies r /\ ~ error_status r /\ body r = Some (PDict d) /\
    dict_lookup (str "error") d = None /\
    (forall w, dict_lookup (str "warnings") d = Some w -> is_object w = true) /\
    dict_lookup (str "data") d = Some (PList items).

(** The Article [a] is the one the literal [article] builds from [item]. *)
Definition article_of (article : pyval -> pyval -> result pyval)
    (item a : pyval) : Prop :=
  exists title, field "title" item = Some title /\ article title item = Ret a.

(** A dictionary literal that puts the title it is given under [title]. *)
Definition keeps_title (article : pyval -> pyval -> result pyval) : Prop :=
  forall title d, exists a,
    article title (PDict d) = Ret (PDict a) /\
    dict_lookup (str "title") a = Some title.

(** A successful reply to an identifier lookup whose payload is the JSON
    object [d]. *)
Definition answers_object (reply : http_reply) (d : pydict) : Prop :=
  exists r, reply = Replies r /\ ~ error_status r /\ body r = Some (PDict d).

(** The value under [k] in [d], or [default] when [d] has no key [k]. *)
Definition lookup_or (d : pydict) (k : pystr) (default : pyval) : pyval :=
  match dict_lookup k d with
  | Some v => v
  | None => default
  end.

(** The optional Article fields and the default of each. *)
Definition article_defaults : list (string * pyval) :=
  [ ("description", PStr []); ("snippet", PStr []); ("uuid", PInt 0);
    ("published_at", PStr []); ("url", PStr []); ("source", PInt 0) ]%string.

(** Concrete upstreams and payloads for the examples. *)
Definition always (reply : http_reply) : request -> http_reply :=
  fun _ => reply.

Definition reply_with (status : Z) (payload : pyval) : http_reply :=
  Replies {| status_code := status; body := Some payload |}.

Definition titled (title : string) : pyval :=
  PDict [ (str "title", PStr (str title)) ].

Definition data_payload (items : list pyval) : pyval :=
  PDict [ (str "data", PList items) ].

(** An upstream that tells the similarity endpoint from the others by the URL
    of the request. *)
Definition two_endpoints (rq : request) : http_reply :=
  if is_prefix (str "https://api.thenewsapi.com/v1/news/similar/") (req_url rq)
  then reply_with 200 (data_payload [titled "Greenland Says NO!"; PInt 5])
  else reply_with 200
         (data_payload [titled "Trump Wants Greenland"; PDict []; titled ""]).

(** An upstream on which the similarity endpoint alone fails. *)
Definition similar_is_down (rq : request) : http_reply :=
  if is_prefix (str "https://api.thenewsapi.com/v1/news/similar/") (req_url rq)
  then Fails ConnectionError
  else reply_with 200 (data_payload [titled "Trump Wants Greenland"]).

(** An upstream whose search endpoint answers with a [data] that is an
    object, and whose other endpoints answer with an array. *)
Definition data_is_object_on_search (rq : request) : http_reply :=
  if pystr_eqb (req_url rq) (str "https://api.thenewsapi.com/v1/news/all")
  then reply_with 200 (PDict [ (str "data", titled "Trump Wants Greenland") ])
  else reply_with 200 (data_payload [titled "Trump Wants Greenland"]).

(** A query of 301 letters between blanks. *)
Definition long_query : pystr :=
  str "  " ++ repeat 97%N 301 ++ str " ".

(** The keys of the dictionary literals of [search_news] and of
    [search_similar_news_by_uuid], in the order of each literal. *)
Definition search_article_keys : list pystr :=
  [ str "title"; str "description"; str "snippet"; str "uuid";
    str "published_at"; str "url"; str "source" ].

Definition similar_article_keys : list pystr :=
  [ str "title"; str "description"; str "snippet"; str "uuid";
    str "source"; str "published_at"; str "url" ].

(** A dictionary with the keys [keys], in this order, and a non-empty title. *)
Definition is_article (keys : list pystr) (a : pyval) : Prop :=
  carries_title a = true /\ exists d, a = PDict d /\ dict_keys d = keys.

(** A reply whose body is the JSON object [d], whatever its status. *)
Definition has_payload (reply : http_reply) (d : pydict) : Prop :=
  exists r, reply = Replies r /\ body r = Some (PDict d).

(** A payload with a titled item and a [warnings] entry that is a string. *)
Definition payload_with_bad_warnings : pydict :=
  [ (str "warnings", PStr (str "slow"));
    (str "data", PList [titled "Trump Wants Greenland"]) ].

(** An upstream whose identifier endpoint alone answers with it. *)
Definition bad_warnings_on_lookup (rq : request) : http_reply :=
  if is_prefix (str "https://api.thenewsapi.com/v1/news/uuid/") (req_url rq)
  then reply_with 200 (PDict payload_with_bad_warnings)
  else reply_with 200 (data_payload [titled "Trump Wants Greenland"]).

(** The flat record of an article, with [published_at] besides the six keys
    the identifier lookup picks. *)
Definition flat_record : pydict :=
  [ (str "uuid", PStr (str "3dd16916-8d7d-4848-bf5f-6c95d3d68b88"));
    (str "title", PStr (str "Trump Wants Greenland; Greenland Says NO!"));
    (str "description", PNone);
    (str "snippet", PStr (str "..."));
    (str "url", PStr (str "https://example.org/a"));
    (str "published_at", PStr (str "2026-01-10T09:00:00.000000Z"));
    (str "source", PStr (str "example.org")) ].

(** The three values of the [status] field of an envelope. *)
Definition envelope_statuses : list pystr :=
  [ str "success"; str "no_results"; str "error" ].

(* ------------------------------------------------------------------------- *)
(** ** Strings *)
(* ------------------------------------------------------------------------- *)

Lemma pystr_eqb_eq (a b : pystr) : pystr_eqb a b = true <-> a = b.
Proof.
  revert b; induction a as [|x a IH]; intros [|y b]; simpl; split;
    try congruence; try reflexivity.
  - intros H. apply andb_true_iff in H as [Hxy Hab].
    apply N.eqb_eq in Hxy. apply IH in Hab. congruence.
  - intros H. injection H as -> ->. rewrite N.eqb_refl. simpl. now apply IH.
Qed.

Lemma pystr_eqb_nil (s : pystr) : pystr_eqb s [] = true <-> s = [].
Proof. apply pystr_eqb_eq. Qed.

Lemma truthy_str (s : pystr) : truthy (PStr s) = false <-> s = [].
Proof.
  simpl. rewrite negb_false_iff. apply pystr_eqb_nil.
Qed.

Lemma lstrip_nil (s : pystr) : lstrip s = [] <-> blank s = true.
Proof.
  unfold blank. induction s as [|c s IH]; simpl.
  - tauto.
  - destruct (is_whitespace c); simpl.
    + exact IH.
    + split; discriminate.
Qed.

Lemma blank_app (s t : pystr) : blank (s ++ t) = blank s && blank t.
Proof. apply forallb_app. Qed.

Lemma blank_rev (s : pystr) : blank (rev s) = blank s.
Proof.
  induction s as [|c s IH]; simpl; [reflexivity|].
  rewrite blank_app, IH. simpl. rewrite andb_true_r. apply andb_comm.
Qed.

(** What is left of [lstrip] is empty or starts with a visible character. *)
Lemma lstrip_blank (s : pystr) : blank (lstrip s) = true -> lstrip s = [].
Proof.
  induction s as [|c s IH]; simpl; [reflexivity|].
  destruct (is_whitespace c) eqn:Hc; [exact IH|].
  simpl. rewrite Hc. discriminate.
Qed.

Lemma strip_nil (s : pystr) : strip s = [] <-> blank s = true.
Proof.
  unfold strip, rstrip. split.
  - intros H. apply (f_equal (@rev codepoint)) in H.
    rewrite rev_involutive in H. simpl in H.
    apply lstrip_nil in H. rewrite blank_rev in H.
    apply lstrip_nil. now apply lstrip_blank.
  - intros H. apply lstrip_nil in H. rewrite H. reflexivity.
Qed.

Lemma not_blank (s : pystr) : strip s <> [] -> blank s = false.
Proof.
  intros H. destruct (blank s) eqn:Hb; [|reflexivity].
  now apply strip_nil in Hb.
Qed.

(** The guard [not query or not query.strip()] holds of the blank strings. *)
Lemma blank_guard (s : pystr) :
  negb (truthy (PStr s)) || negb (truthy (PStr (strip s))) = blank s.
Proof.
  destruct (blank s) eqn:Hb.
  - apply orb_true_iff. right. apply negb_true_iff, truthy_str.
    now apply strip_nil.
  - apply orb_false_iff. split; apply negb_false_iff;
      apply not_false_iff_true; rewrite truthy_str; intros H.
    + subst s. discriminate.
    + apply strip_nil in H. congruence.
Qed.

Lemma len_firstn (n : nat) (s : pystr) :
  Z.of_nat n <= len s -> len (slice_to n s) = Z.of_nat n.
Proof.
  unfold len, slice_to. intros H. rewrite length_firstn. lia.
Qed.

(* ------------------------------------------------------------------------- *)
(** ** Exception handling *)
(* ------------------------------------------------------------------------- *)

(** Every exception is an [Exception]: the last clause catches what the
    earlier ones let through. *)
Lemma isinstance_Exception (e : exn) : isinstance e CException = true.
Proof. now destruct e. Qed.

Lemma dispatch_handlers {A} (empty : A) (e : exn) :
  dispatch (handlers empty) e = ret empty.
Proof. destruct e; reflexivity. Qed.

Lemma try_except_handlers {A} (empty : A) (m : M A) (log : list request) :
  try_except m (handlers empty) log =
  (Ret (recover empty (fst (m log))), snd (m log)).
Proof.
  unfold try_except. destruct (m log) as [[a|e] log'].
  - reflexivity.
  - now rewrite dispatch_handlers.
Qed.

Lemma request_then_read {A} (upstream : request -> http_reply)
    (read : response -> result A) (url : pystr) (params : pydict)
    (log : list request) :
  (response <- requests_get upstream url params ;; lift (read response))%M log =
  (read_reply read (upstream (mk_request url params)),
   log ++ [mk_request url params]).
Proof.
  unfold bind, requests_get, lift, read_reply.
  now destruct (upstream _).
Qed.

(* ------------------------------------------------------------------------- *)
(** ** The gateway operations, one request at a time *)
(* ------------------------------------------------------------------------- *)

Section GatewayRuns.

Variable upstream : request -> http_reply.
Variable self : TheNewsAPIClient.

Lemma search_news_blank query categories limit :
  blank query = true ->
  search_news upstream self query categories limit = ret [].
Proof.
  intros Hb. unfold search_news. now rewrite blank_guard, Hb.
Qed.

Lemma search_news_run query categories limit log :
  blank query = false ->
  search_news upstream self query categories limit log =
  (Ret (recover [] (read_reply search_news_response
                      (upstream (search_request self query categories limit)))),
   log ++ [search_request self query categories limit]).
Proof.
  intros Hb. unfold search_news. rewrite blank_guard, Hb. cbv zeta.
  rewrite try_except_handlers, request_then_read. reflexivity.
Qed.

Lemma search_news_by_uuid_run uuid log :
  search_news_by_uuid upstream self uuid log =
  (Ret (recover (PList []) (read_reply search_news_by_uuid_response
                              (upstream (uuid_request self uuid)))),
   log ++ [uuid_request self uuid]).
Proof.
  unfold search_news_by_uuid. cbv zeta.
  rewrite try_except_handlers, request_then_read. reflexivity.
Qed.

Lemma search_similar_news_by_uuid_run uuid limit categories log :
  search_similar_news_by_uuid upstream self uuid limit categories log =
  (Ret (recover [] (read_reply search_similar_news_by_uuid_response
                      (upstream (similar_request self uuid limit categories)))),
   log ++ [similar_request self uuid limit categories]).
Proof.
  unfold search_similar_news_by_uuid. cbv zeta.
  rewrite try_except_handlers, request_then_read. reflexivity.
Qed.

(** No exception escapes [search_news]: it returns a list on every input
    and against every upstream. *)
Lemma search_news_total query categories limit log :
  exists results log',
    search_news upstream self query categories limit log = (Ret results, log').
Proof.
  destruct (blank query) eqn:Hb.
  - rewrite search_news_blank by assumption. now exists [], log.
  - rewrite search_news_run by assumption. eauto.
Qed.

End GatewayRuns.

(* ------------------------------------------------------------------------- *)
(** ** The tools, for any client *)
(* ------------------------------------------------------------------------- *)

Section FacadeRuns.

Variable g : NewsGateway.

Lemma search_blank query limit categories :
  blank query = true ->
  search g query limit categories =
  ret (PDict [ (str "query", PStr query);
               (str "results", PList []);
               (str "status", PStr (str "error"));
               (str "message", PStr (str "Empty search query provided")) ]).
Proof.
  intros Hb. unfold search. now rewrite blank_guard, Hb.
Qed.

Lemma search_delegates query limit categories :
  blank query = false ->
  search g query limit categories =
  (results <- client_search_news g query categories (validated_limit limit) ;;
   ret (search_response query results))%M.
Proof.
  intros Hb. unfold search. now rewrite blank_guard, Hb.
Qed.

Lemma search_run query limit categories log results log' :
  blank query = false ->
  client_search_news g query categories (validated_limit limit) log
    = (Ret results, log') ->
  search g query limit categories log
    = (Ret (search_response query results), log').
Proof.
  intros Hb Hg. rewrite search_delegates by assumption.
  unfold bind. now rewrite Hg.
Qed.

Lemma get_article_blank uuid :
  blank uuid = true ->
  get_article g uuid =
  ret (PDict [ (str "uuid", PStr uuid);
               (str "results", PList []);
               (str "status", PStr (str "error"));
               (str "message", PStr (str "Empty search query provided")) ]).
Proof.
  intros Hb. unfold get_article. now rewrite blank_guard, Hb.
Qed.

Lemma get_article_run uuid log result log' :
  blank uuid = false ->
  client_search_news_by_uuid g uuid log = (Ret result, log') ->
  get_article g uuid log = (Ret (get_article_response uuid result), log').
Proof.
  intros Hb Hg. unfold get_article. rewrite blank_guard, Hb.
  unfold bind. now rewrite Hg.
Qed.

End FacadeRuns.

(* ------------------------------------------------------------------------- *)
(** ** The envelopes *)
(* ------------------------------------------------------------------------- *)

Lemma no_results_message_nonempty : no_results_message <> [].
Proof. discriminate. Qed.

Lemma search_response_query query results :
  field "query" (search_response query results) = Some (PStr query).
Proof. unfold search_response. now destruct results. Qed.

Lemma search_response_results query results :
  field "results" (search_response query results) = Some (PList results).
Proof. unfold search_response. now destruct results. Qed.

Lemma search_response_count query results :
  field "count" (search_response query results)
  = Some (PInt (Z.of_nat (length results))).
Proof. unfold search_response. now destruct results. Qed.

Lemma search_response_status query results :
  field "status" (search_response query results)
  = Some (PStr (match results with
                | [] => str "no_results"
                | _ :: _ => str "success"
                end)).
Proof. unfold search_response. now destruct results. Qed.

Lemma search_response_message query results :
  field "message" (search_response query results)
  = match results with
    | [] => Some (PStr no_results_message)
    | _ :: _ => None
    end.
Proof. unfold search_response. now destruct results. Qed.

Lemma get_article_response_fields uuid result :
  field "uuid" (get_article_response uuid result) = Some (PStr uuid) /\
  field "result" (get_article_response uuid result) = Some result /\
  field "status" (get_article_response uuid result)
  = Some (PStr (if truthy result then str "success" else str "no_results")) /\
  field "message" (get_article_response uuid result)
  = (if truthy result then None else Some (PStr no_results_message)).
Proof. unfold get_article_response. now destruct (truthy result). Qed.

(* ------------------------------------------------------------------------- *)
(** ** Reading a reply *)
(* ------------------------------------------------------------------------- *)

Lemma raise_for_status_error (r : response) :
  error_status r -> raise_for_status r = Raise HTTPError.
Proof.
  unfold error_status, raise_for_status. intros [H1 H2].
  apply Z.leb_le in H1. apply Z.ltb_lt in H2. now rewrite H1, H2.
Qed.

Lemma raise_for_status_ok (r : response) :
  ~ error_status r -> raise_for_status r = Ret tt.
Proof.
  unfold error_status, raise_for_status. intros H.
  destruct (400 <=? status_code r) eqn:H1; [|reflexivity].
  destruct (status_code r <? 600) eqn:H2; [|reflexivity].
  apply Z.leb_le in H1. apply Z.ltb_lt in H2. lia.
Qed.

(** The branch taken on an [error] field ends in the empty value, whatever
    the shape of the error object. *)
Lemma report_api_error_recover {A} (data : pyval) (empty : A) :
  recover empty (report_api_error data empty) = empty.
Proof.
  unfold report_api_error.
  destruct (py_getitem data (str "error")) as [info|]; [|reflexivity].
  cbn [rbind]. destruct (py_get info (str "code") _); [|reflexivity].
  cbn [rbind]. destruct (py_get info (str "info") _); reflexivity.
Qed.

Lemma log_warnings_object (d : pydict) :
  (forall w, dict_lookup (str "warnings") d = Some w -> is_object w = true) ->
  log_warnings (PDict d) = Ret tt.
Proof.
  intros Hw. unfold log_warnings, py_in, dict_mem, py_getitem.
  destruct (dict_lookup (str "warnings") d) as [w|]; [|reflexivity].
  cbn [rbind]. specialize (Hw w eq_refl). now destruct w.
Qed.

Lemma dict_mem_lookup (k : pystr) (d : pydict) :
  dict_lookup k d = None -> dict_mem k d = false.
Proof. unfold dict_mem. now intros ->. Qed.

Lemma py_get_object (d : pydict) (k : pystr) (default : pyval) :
  py_get (PDict d) k default
  = Ret (match dict_lookup k d with Some v => v | None => default end).
Proof. reflexivity. Qed.

(** On a JSON object both dictionary literals evaluate. *)
Lemma search_article_object (title : pyval) (d : pydict) :
  exists a, search_article title (PDict d) = Ret (PDict a) /\
            dict_lookup (str "title") a = Some title.
Proof. unfold search_article. rewrite !py_get_object. cbn [rbind]. eauto. Qed.

Lemma similar_article_object (title : pyval) (d : pydict) :
  exists a, similar_article title (PDict d) = Ret (PDict a) /\
            dict_lookup (str "title") a = Some title.
Proof. unfold similar_article. rewrite !py_get_object. cbn [rbind]. eauto. Qed.

Lemma article_of_carries_title article item a :
  keeps_title article ->
  article_of article item a -> carries_title item = true ->
  carries_title a = true.
Proof.
  intros Hk [title [Ht Ha]] Hc.
  unfold carries_title in Hc. rewrite Ht in Hc.
  destruct item as [| | | | |l|d]; try discriminate Ht.
  destruct (Hk title d) as [a' [Ha' Hl]]. rewrite Ha' in Ha.
  injection Ha as <-. unfold carries_title, field. now rewrite Hl.
Qed.

(** The loop over an array of JSON objects: the items that carry a title are
    mapped in order, the others are skipped. *)
Lemma collect_articles_objects article items :
  keeps_title article ->
  Forall (fun item => is_object item = true) items ->
  forall results, exists articles,
    collect_articles article items results = Ret (results ++ articles) /\
    Forall2 (article_of article) (filter carries_title items) articles.
Proof.
  intros Hk Hobj. induction Hobj as [|item items Hitem _ IH]; intros results.
  - exists []. rewrite app_nil_r. split; [reflexivity | constructor].
  - destruct item as [| | | | |l|d]; try discriminate Hitem.
    cbn [collect_articles]. rewrite py_get_object. cbn [rbind filter].
    unfold carries_title at 1. cbn [field].
    destruct (dict_lookup (str "title") d) as [title|] eqn:Ht.
    + destruct (truthy title) eqn:Htitle; cbn [negb].
      * destruct (Hk title d) as [a [Ha Hl]]. rewrite Ha. cbn [rbind].
        destruct (IH (results ++ [PDict a])) as [articles [Hrun Hall]].
        exists (PDict a :: articles). rewrite Hrun, <- app_assoc. split.
        -- reflexivity.
        -- constructor; [|exact Hall]. exists title. now split.
      * apply IH.
    + cbn [truthy negb]. apply IH.
Qed.

Lemma Forall2_length_eq {A B} (R : A -> B -> Prop) (l : list A) (l' : list B) :
  Forall2 R l l' -> length l = length l'.
Proof. induction 1; simpl; congruence. Qed.

Lemma Forall2_carries article kept articles :
  keeps_title article ->
  Forall (fun item => carries_title item = true) kept ->
  Forall2 (article_of article) kept articles ->
  Forall (fun a => carries_title a = true) articles.
Proof.
  intros Hk Hkept H. induction H as [|item a kept articles Ha _ IH].
  - constructor.
  - inversion Hkept; subst. constructor.
    + eapply article_of_carries_title; eassumption.
    + now apply IH.
Qed.

Lemma filter_carries items :
  Forall (fun item => carries_title item = true) (filter carries_title items).
Proof.
  apply Forall_forall. intros x Hx. now apply filter_In in Hx.
Qed.

(** What the two list operations read from a reply that delivers [items]. *)
Lemma search_news_response_delivers reply items :
  delivers reply items ->
  read_reply search_news_response reply
  = collect_articles search_article items [].
Proof.
  intros (r & d & -> & Hst & Hbody & Herr & Hw & Hdata).
  unfold read_reply, search_news_response, response_json.
  rewrite raise_for_status_ok, Hbody by assumption. cbn [rbind py_in].
  rewrite dict_mem_lookup by assumption. cbn [rbind].
  rewrite log_warnings_object by assumption. cbn [rbind].
  rewrite py_get_object, Hdata. reflexivity.
Qed.

Lemma search_similar_news_by_uuid_response_delivers reply items :
  delivers reply items ->
  read_reply search_similar_news_by_uuid_response reply
  = collect_articles similar_article items [].
Proof.
  intros (r & d & -> & Hst & Hbody & Herr & Hw & Hdata).
  unfold read_reply, search_similar_news_by_uuid_response, response_json.
  rewrite raise_for_status_ok, Hbody by assumption. cbn [rbind py_in].
  rewrite dict_mem_lookup by assumption. cbn [rbind].
  rewrite log_warnings_object by assumption. cbn [rbind].
  rewrite py_get_object, Hdata. reflexivity.
Qed.

(* ------------------------------------------------------------------------- *)
(** ** What is sent upstream *)
(* ------------------------------------------------------------------------- *)

Lemma search_request_limit self query categories limit :
  param "limit" (search_request self query categories limit)
  = Some (PInt (clamp_limit limit)).
Proof. destruct categories as [[|c cs]|]; reflexivity. Qed.

Lemma search_request_search self query categories limit :
  param "search" (search_request self query categories limit)
  = Some (PStr (search_text query)).
Proof. destruct categories as [[|c cs]|]; reflexivity. Qed.

Lemma clamp_limit_spec (limit : Z) :
  (limit <= 0 -> clamp_limit limit = 1) /\
  (3 < limit -> clamp_limit limit = 3) /\
  (1 <= limit <= 3 -> clamp_limit limit = limit).
Proof.
  unfold clamp_limit.
  destruct (Z.leb_spec limit 0), (Z.ltb_spec 3 limit); repeat split; lia.
Qed.

Lemma validated_limit_spec (limit : Z) :
  (limit <= 0 -> validated_limit limit = 1) /\
  (3 < limit -> validated_limit limit = 3) /\
  (1 <= limit <= 3 -> validated_limit limit = limit).
Proof.
  unfold validated_limit.
  destruct (Z.leb_spec limit 0), (Z.ltb_spec 3 limit); repeat split; lia.
Qed.

Lemma validated_limit_range (limit : Z) : 1 <= validated_limit limit <= 3.
Proof.
  unfold validated_limit.
  destruct (Z.leb_spec limit 0), (Z.ltb_spec 3 limit); lia.
Qed.

(** The second clamping leaves the facade's limit as it is. *)
Lemma clamp_validated (limit : Z) :
  clamp_limit (validated_limit limit) = validated_limit limit.
Proof. apply clamp_limit_spec, validated_limit_range. Qed.

(** The tool [search] of the server, on a query that is not blank: one
    request, and the envelope of what the gateway read from the reply. *)
Lemma tool_search_run upstream access_token query limit categories log :
  blank query = false ->
  let rq := search_request (new_client access_token) query categories
              (validated_limit limit) in
  tool_search (create_server upstream access_token) query limit categories log
  = (Ret (search_response query
            (recover [] (read_reply search_news_response (upstream rq)))),
     log ++ [rq]).
Proof.
  intros Hb rq. cbn [tool_search create_server].
  apply search_run; [assumption|].
  cbn [client_search_news the_client]. now apply search_news_run.
Qed.

(* ------------------------------------------------------------------------- *)
(** ** Caller input errors *)
(* ------------------------------------------------------------------------- *)

(** C1. For every query that is empty or made of whitespace only, the tool
    [search] returns an envelope with status [error], an empty [results] list
    and a non-empty [message]; the envelope is the same for every client
    object, which is therefore not called, and the server sends no request. *)
Theorem search_blank_query_is_error :
  forall (g : NewsGateway) query limit categories log,
    blank query = true ->
    exists envelope message,
      search g query limit categories log = (Ret envelope, log) /\
      field "status" envelope = Some (PStr (str "error")) /\
      field "results" envelope = Some (PList []) /\
      field "message" envelope = Some (PStr message) /\ message <> [] /\
      (forall g' : NewsGateway,
          search g' query limit categories log = (Ret envelope, log)) /\
      (forall upstream access_token,
          calls_of (tool_search (create_server upstream access_token)
                      query limit categories) = []).
Proof.
  intros g query limit categories log Hb.
  eexists. exists (str "Empty search query provided").
  split; [now rewrite search_blank by assumption|].
  repeat split; try reflexivity; try discriminate.
  - intros g'. now rewrite search_blank by assumption.
  - intros upstream access_token. unfold calls_of.
    cbn [tool_search create_server]. now rewrite search_blank by assumption.
Qed.

Lemma search_blank_query_is_error_witness :
  blank (str "   ") = true /\
  exists envelope message,
    search (the_client (always (Fails Timeout)) PNone) (str "   ") 2 None []
      = (Ret envelope, []) /\
    field "status" envelope = Some (PStr (str "error")) /\
    field "results" envelope = Some (PList []) /\
    field "message" envelope = Some (PStr message) /\ message <> [] /\
    (forall g' : NewsGateway,
        search g' (str "   ") 2 None [] = (Ret envelope, [])) /\
    (forall upstream access_token,
        calls_of (tool_search (create_server upstream access_token)
                    (str "   ") 2 None) = []).
Proof.
  split; [reflexivity|].
  apply (search_blank_query_is_error
           (the_client (always (Fails Timeout)) PNone) (str "   ") 2 None []).
  reflexivity.
Defined.

(* ------------------------------------------------------------------------- *)
(** ** Clamping of the limit *)
(* ------------------------------------------------------------------------- *)

(** C3. For every integer [limit] the facade's [validated_limit] and the
    gateway's clamping both give 1 when [limit <= 0], 3 when [limit > 3] and
    [limit] itself when [1 <= limit <= 3].  The facade clamps before it
    delegates ([search] calls the client with [validated_limit limit]), the
    gateway clamps what it receives again, and the [limit] parameter of the
    request that goes upstream is the clamped value on both paths. *)
Theorem limit_is_clamped :
  forall limit : Z,
    exists effective,
      (limit <= 0 -> effective = 1) /\
      (3 < limit -> effective = 3) /\
      (1 <= limit <= 3 -> effective = limit) /\
      validated_limit limit = effective /\
      clamp_limit limit = effective /\
      clamp_limit (validated_limit limit) = effective /\
      (forall (g : NewsGateway) query categories,
          blank query = false ->
          search g query limit categories =
          (results <- client_search_news g query categories effective ;;
           ret (search_response query results))%M) /\
      (forall upstream self query categories,
          blank query = false ->
          map (param "limit")
              (calls_of (search_news upstream self query categories limit))
            = [Some (PInt effective)]) /\
      (forall upstream access_token query categories,
          blank query = false ->
          map (param "limit")
              (calls_of (tool_search (create_server upstream access_token)
                           query limit categories))
            = [Some (PInt effective)]).
Proof.
  intros limit. exists (validated_limit limit).
  destruct (validated_limit_spec limit) as (H0 & H3 & Hin).
  repeat split; try assumption.
  - apply clamp_validated.
  - intros g query categories Hb. now apply search_delegates.
  - intros upstream self query categories Hb.
    unfold calls_of. rewrite search_news_run by assumption.
    cbn [snd app map]. rewrite search_request_limit. reflexivity.
  - intros upstream access_token query categories Hb.
    unfold calls_of. rewrite tool_search_run by assumption.
    cbn [snd app map]. rewrite search_request_limit, clamp_validated.
    reflexivity.
Qed.

Lemma limit_is_clamped_witness :
  3 < 5 /\ blank (str "Greenland") = false /\
  validated_limit 5 = 3 /\ clamp_limit 5 = 3 /\
  map (param "limit")
      (calls_of (search_news (always (Fails Timeout)) (new_client PNone)
                   (str "Greenland") None 5))
    = [Some (PInt 3)] /\
  map (param "limit")
      (calls_of (tool_search (create_server (always (Fails Timeout)) PNone)
                   (str "Greenland") 5 None))
    = [Some (PInt 3)].
Proof.
  destruct (limit_is_clamped 5)
    as (effective & _ & H3 & _ & Hv & Hc & _ & _ & Hgateway & Htool).
  assert (Hlimit : 3 < 5) by lia.
  assert (Hb : blank (str "Greenland") = false) by reflexivity.
  specialize (H3 Hlimit). subst effective.
  split; [exact Hlimit|]. split; [exact Hb|].
  split; [exact Hv|]. split; [exact Hc|]. split.
  - exact (Hgateway (always (Fails Timeout)) (new_client PNone)
             (str "Greenland") None Hb).
  - exact (Htool (always (Fails Timeout)) PNone (str "Greenland") None Hb).
Defined.

(* ------------------------------------------------------------------------- *)
(** ** Truncation of the search text *)
(* ------------------------------------------------------------------------- *)

(** C4. When the trimmed query is longer than 300 characters, the [search]
    parameter of the request [search_news] sends is the first 100 characters
    of the trimmed query; when the trimmed query has at most 300 characters
    the parameter is the trimmed query unchanged (and when nothing is left of
    the query after trimming, no request is sent). *)
Theorem search_text_is_truncated :
  forall upstream self query categories limit,
    (300 < len (strip query) ->
       map (param "search")
           (calls_of (search_news upstream self query categories limit))
         = [Some (PStr (firstn 100 (strip query)))]) /\
    (0 < len (strip query) <= 300 ->
       map (param "search")
           (calls_of (search_news upstream self query categories limit))
         = [Some (PStr (strip query))]) /\
    (len (strip query) = 0 ->
       calls_of (search_news upstream self query categories limit) = []).
Proof.
  intros upstream self query categories limit.
  assert (Hsent : 0 < len (strip query) ->
            map (param "search")
                (calls_of (search_news upstream self query categories limit))
              = [Some (PStr (search_text query))]).
  { intros Hpos. unfold calls_of. rewrite search_news_run.
    - cbn [snd app map]. now rewrite search_request_search.
    - destruct (blank query) eqn:Hb; [|reflexivity].
      apply strip_nil in Hb. rewrite Hb in Hpos. discriminate Hpos. }
  unfold search_text in Hsent. cbv zeta in Hsent.
  split; [|split].
  - intros Hlong. rewrite Hsent by lia.
    destruct (Z.ltb_spec 300 (len (strip query))); [reflexivity | lia].
  - intros Hshort. rewrite Hsent by lia.
    destruct (Z.ltb_spec 300 (len (strip query))); [lia | reflexivity].
  - intros Hzero. unfold calls_of. rewrite search_news_blank; [reflexivity|].
    apply strip_nil. unfold len in Hzero.
    destruct (strip query); [reflexivity | discriminate Hzero].
Qed.

Lemma search_text_is_truncated_witness :
  300 < len (strip long_query) /\
  map (param "search")
      (calls_of (search_news (always (Fails Timeout)) (new_client PNone)
                   long_query None 1))
    = [Some (PStr (firstn 100 (strip long_query)))].
Proof.
  assert (Hlong : 300 < len (strip long_query)) by reflexivity.
  split; [exact Hlong|].
  exact (proj1 (search_text_is_truncated (always (Fails Timeout))
                  (new_client PNone) long_query None 1) Hlong).
Defined.

(** The trimmed [long_query] is over the threshold, and only its first 100
    letters are sent. *)
Example long_query_sent :
  len (strip long_query) = 301 /\
  map (param "search")
      (calls_of (search_news (always (Fails Timeout)) (new_client PNone)
                   long_query None 1))
    = [Some (PStr (repeat 97%N 100))].
Proof. split; reflexivity. Qed.

(* ------------------------------------------------------------------------- *)
(** ** The envelope of [search] *)
(* ------------------------------------------------------------------------- *)

(** C7. For every query that is non-empty after trimming (the others get
    the error envelope of C1), if the gateway returns the list [results],
    [search] returns an envelope whose status is [success] exactly when
    [results] is not empty; when it is empty the status is [no_results], there
    is a non-empty [message], [count] is 0 and [results] is the empty list.
    In both cases [results] is the gateway's list and [count] its length. *)
Theorem search_status_reflects_results :
  forall (g : NewsGateway) query limit categories log results log',
    strip query <> [] ->
    client_search_news g query categories (validated_limit limit) log
      = (Ret results, log') ->
    exists envelope,
      search g query limit categories log = (Ret envelope, log') /\
      (field "status" envelope = Some (PStr (str "success")) <-> results <> []) /\
      (results = [] ->
         field "status" envelope = Some (PStr (str "no_results")) /\
         (exists message,
             field "message" envelope = Some (PStr message) /\ message <> []) /\
         field "count" envelope = Some (PInt 0) /\
         field "results" envelope = Some (PList [])) /\
      field "results" envelope = Some (PList results) /\
      field "count" envelope = Some (PInt (Z.of_nat (length results))).
Proof.
  intros g query limit categories log results log' Hq Hg.
  apply not_blank in Hq.
  exists (search_response query results).
  split; [now apply search_run|].
  rewrite search_response_status, search_response_message,
    search_response_count, search_response_results.
  repeat split.
  - destruct results; [discriminate | discriminate].
  - destruct results; [congruence | reflexivity].
  - now subst results.
  - subst results. exists no_results_message.
    split; [reflexivity | apply no_results_message_nonempty].
  - now subst results.
  - now subst results.
Qed.

Lemma search_status_reflects_results_witness :
  strip (str "Trump Greenland") <> [] /\
  client_search_news
    (the_client (always (reply_with 200 (data_payload []))) PNone)
    (str "Trump Greenland") None (validated_limit 1) []
    = (Ret [], [search_request (new_client PNone) (str "Trump Greenland") None 1]) /\
  exists envelope,
    search (the_client (always (reply_with 200 (data_payload []))) PNone)
      (str "Trump Greenland") 1 None []
      = (Ret envelope,
         [search_request (new_client PNone) (str "Trump Greenland") None 1]) /\
    (field "status" envelope = Some (PStr (str "success")) <-> @nil pyval <> []) /\
    (@nil pyval = [] ->
       field "status" envelope = Some (PStr (str "no_results")) /\
       (exists message,
           field "message" envelope = Some (PStr message) /\ message <> []) /\
       field "count" envelope = Some (PInt 0) /\
       field "results" envelope = Some (PList [])) /\
    field "results" envelope = Some (PList []) /\
    field "count" envelope = Some (PInt (Z.of_nat (length (@nil pyval)))).
Proof.
  split; [discriminate|]. split; [reflexivity|].
  apply (search_status_reflects_results
           (the_client (always (reply_with 200 (data_payload []))) PNone)
           (str "Trump Greenland") 1 None []); [discriminate | reflexivity].
Defined.

(** The server's own client always returns a list, so the envelope above is
    what the tool returns on every query that is not blank. *)
Lemma tool_search_returns upstream access_token query limit categories log :
  blank query = false ->
  exists results log',
    client_search_news (the_client upstream access_token) query categories
      (validated_limit limit) log = (Ret results, log') /\
    tool_search (create_server upstream access_token) query limit categories log
      = (Ret (search_response query results), log').
Proof.
  intros Hb.
  destruct (search_news_total upstream (new_client access_token) query
              categories (validated_limit limit) log) as (results & log' & Hrun).
  exists results, log'. split; [exact Hrun|].
  cbn [tool_search create_server]. now apply search_run.
Qed.

(** C10. The [query] field of the envelope returned by [search] is the
    caller's string as given, for every query; for a query that is not blank
    the search text of the request that goes upstream is the trimmed query,
    cut to its first 100 characters when it is longer than 300. *)
Theorem search_envelope_keeps_query :
  forall upstream access_token query limit categories,
    exists envelope,
      value_of (tool_search (create_server upstream access_token)
                  query limit categories) = Ret envelope /\
      field "query" envelope = Some (PStr query) /\
      (blank query = false ->
       map (param "search")
           (calls_of (tool_search (create_server upstream access_token)
                        query limit categories))
         = [Some (PStr (if 300 <? len (strip query)
                        then firstn 100 (strip query)
                        else strip query))]).
Proof.
  intros upstream access_token query limit categories.
  destruct (blank query) eqn:Hb.
  - eexists. unfold value_of. cbn [tool_search create_server].
    rewrite search_blank by assumption.
    split; [reflexivity|]. split; [reflexivity | discriminate].
  - eexists. unfold value_of, calls_of.
    rewrite tool_search_run by assumption. cbn [fst snd app map].
    split; [reflexivity|]. split.
    + apply search_response_query.
    + intros _. now rewrite search_request_search.
Qed.

Lemma search_envelope_keeps_query_witness :
  blank long_query = false /\
  exists envelope,
    value_of (tool_search
                (create_server (always (reply_with 200 (data_payload [titled "A"])))
                   PNone)
                long_query 1 None) = Ret envelope /\
    field "query" envelope = Some (PStr long_query) /\
    map (param "search")
        (calls_of (tool_search
                     (create_server (always (reply_with 200 (data_payload [titled "A"])))
                        PNone)
                     long_query 1 None))
      = [Some (PStr (repeat 97%N 100))].
Proof.
  assert (Hb : blank long_query = false) by reflexivity.
  split; [exact Hb|].
  destruct (search_envelope_keeps_query
              (always (reply_with 200 (data_payload [titled "A"]))) PNone
              long_query 1 None) as (envelope & Hrun & Hquery & Hsent).
  exists envelope. split; [exact Hrun|]. split; [exact Hquery|].
  exact (Hsent Hb).
Defined.

(** On [long_query] the two differ: 304 characters in the envelope, 100 sent. *)
Example long_query_differs :
  search_text long_query <> long_query /\
  len long_query = 304 /\ len (search_text long_query) = 100.
Proof. repeat split; [intros H; discriminate H]. Qed.

(* ------------------------------------------------------------------------- *)
(** ** The envelope of [get_article] *)
(* ------------------------------------------------------------------------- *)

(** On an identifier that is not blank the envelope has the keys [uuid],
    [result] and [status], and [message] exactly when the gateway's value is
    empty. *)
Lemma get_article_envelope (g : NewsGateway) uuid log result log' :
  blank uuid = false ->
  client_search_news_by_uuid g uuid log = (Ret result, log') ->
  exists envelope,
    get_article g uuid log = (Ret envelope, log') /\
    field "uuid" envelope = Some (PStr uuid) /\
    field "result" envelope = Some result /\
    field "status" envelope
      = Some (PStr (if truthy result then str "success" else str "no_results")) /\
    field "message" envelope
      = (if truthy result then None else Some (PStr no_results_message)).
Proof.
  intros Hb Hg. exists (get_article_response uuid result).
  split; [now apply get_article_run|]. apply get_article_response_fields.
Qed.

(** C8, at the empty identifier: the envelope [get_article] returns has the
    keys [uuid], [results], [status] and [message]; it has no key [result]. *)
Theorem get_article_empty_uuid_envelope :
  forall (g : NewsGateway) log,
    exists envelope,
      get_article g (str "") log = (Ret (PDict envelope), log) /\
      dict_keys envelope
        = [str "uuid"; str "results"; str "status"; str "message"] /\
      field "result" (PDict envelope) = None /\
      field "results" (PDict envelope) = Some (PList []) /\
      field "status" (PDict envelope) = Some (PStr (str "error")).
Proof.
  intros g log. eexists.
  rewrite get_article_blank by reflexivity.
  repeat split; reflexivity.
Qed.

(** The same on every blank identifier. *)
Lemma get_article_blank_uuid_envelope (g : NewsGateway) uuid log :
  blank uuid = true ->
  exists envelope,
    get_article g uuid log = (Ret envelope, log) /\
    field "result" envelope = None /\
    field "results" envelope = Some (PList []).
Proof.
  intros Hb. eexists. rewrite get_article_blank by assumption.
  repeat split; reflexivity.
Qed.

(* ------------------------------------------------------------------------- *)
(** ** Identifier lookup on a payload that misses a key *)
(* ------------------------------------------------------------------------- *)

Lemma pick_keys_missing (d : pydict) (keys : list pystr) (key : pystr) :
  In key keys -> dict_lookup key d = None ->
  exists e, pick_keys (PDict d) keys = Raise e.
Proof.
  intros Hin Hnone. induction keys as [|k keys IH]; [contradiction|].
  cbn [pick_keys py_getitem].
  destruct (dict_lookup k d) as [v|] eqn:Hk; cbn [rbind].
  - destruct Hin as [->|Hin]; [congruence|].
    destruct (IH Hin) as [e He]. rewrite He. now exists e.
  - now exists KeyError.
Qed.

Lemma search_news_by_uuid_response_missing (r : response) (d : pydict) key :
  body r = Some (PDict d) ->
  In key article_keys -> dict_lookup key d = None ->
  recover (PList []) (search_news_by_uuid_response r) = PList [].
Proof.
  intros Hbody Hin Hnone. unfold search_news_by_uuid_response, response_json.
  destruct (raise_for_status r); [|reflexivity].
  rewrite Hbody. cbn [rbind py_in].
  destruct (dict_mem (str "error") d).
  - apply report_api_error_recover.
  - destruct (log_warnings (PDict d)); [|reflexivity]. cbn [rbind].
    destruct (pick_keys_missing d article_keys key Hin Hnone) as [e He].
    now rewrite He.
Qed.

(** C2, as the code has it.  In [search_news_by_uuid], on an HTTP success
    whose JSON payload is an object that lacks one of the keys [uuid],
    [title], [snippet], [description], [url], [source], the failed key lookup
    is caught by the [except] clauses of the operation: the call returns the
    empty list [[]] after its one request, and raises nothing. *)
Theorem missing_key_gives_empty_result :
  forall upstream self uuid (d : pydict) key,
    answers_object (upstream (uuid_request self uuid)) d ->
    In key article_keys ->
    dict_lookup key d = None ->
    value_of (search_news_by_uuid upstream self uuid) = Ret (PList []) /\
    calls_of (search_news_by_uuid upstream self uuid) = [uuid_request self uuid].
Proof.
  intros upstream self uuid d key (r & Hreply & _ & Hbody) Hin Hnone.
  unfold value_of, calls_of. rewrite search_news_by_uuid_run.
  cbn [fst snd app]. split; [|reflexivity].
  rewrite Hreply. cbn [read_reply].
  now rewrite (search_news_by_uuid_response_missing r d key).
Qed.

Lemma missing_key_gives_empty_result_witness :
  answers_object
    (always (reply_with 200 (titled "Trump Wants Greenland"))
       (uuid_request (new_client PNone) (str "3dd16916")))
    [ (str "title", PStr (str "Trump Wants Greenland")) ] /\
  In (str "uuid") article_keys /\
  dict_lookup (str "uuid") [ (str "title", PStr (str "Trump Wants Greenland")) ]
    = None /\
  value_of (search_news_by_uuid
              (always (reply_with 200 (titled "Trump Wants Greenland")))
              (new_client PNone) (str "3dd16916")) = Ret (PList []) /\
  calls_of (search_news_by_uuid
              (always (reply_with 200 (titled "Trump Wants Greenland")))
              (new_client PNone) (str "3dd16916"))
    = [uuid_request (new_client PNone) (str "3dd16916")].
Proof.
  assert (Hreply : answers_object
    (always (reply_with 200 (titled "Trump Wants Greenland"))
       (uuid_request (new_client PNone) (str "3dd16916")))
    [ (str "title", PStr (str "Trump Wants Greenland")) ]).
  { eexists. split; [reflexivity|]. split; [|reflexivity].
    unfold error_status. simpl. lia. }
  split; [exact Hreply|]. split; [now left|]. split; [reflexivity|].
  apply (missing_key_gives_empty_result
           (always (reply_with 200 (titled "Trump Wants Greenland")))
           (new_client PNone) (str "3dd16916")
           [ (str "title", PStr (str "Trump Wants Greenland")) ] (str "uuid")).
  - exact Hreply.
  - now left.
  - reflexivity.
Defined.

(** C2 as stated fails: a 200 reply whose payload has a [title] only makes
    [search_news_by_uuid] return [[]]; no exception leaves the call, and
    [get_article] reports [no_results]. *)
Lemma missing_key_does_not_raise :
  dict_lookup (str "uuid") [ (str "title", PStr (str "Trump Wants Greenland")) ]
    = None /\
  value_of (search_news_by_uuid
              (always (reply_with 200 (titled "Trump Wants Greenland")))
              (new_client PNone) (str "3dd16916")) = Ret (PList []) /\
  (forall e,
      value_of (search_news_by_uuid
                  (always (reply_with 200 (titled "Trump Wants Greenland")))
                  (new_client PNone) (str "3dd16916")) <> Raise e) /\
  exists envelope,
    value_of (tool_get_article
                (create_server
                   (always (reply_with 200 (titled "Trump Wants Greenland"))) PNone)
                (str "3dd16916")) = Ret envelope /\
    field "status" envelope = Some (PStr (str "no_results")).
Proof.
  split; [reflexivity|]. split; [reflexivity|]. split.
  - intros e. discriminate.
  - eexists. split; reflexivity.
Qed.

(* ------------------------------------------------------------------------- *)
(** ** Mapping of the upstream items *)
(* ------------------------------------------------------------------------- *)

Lemma search_article_keeps_title : keeps_title search_article.
Proof. intros title d. apply search_article_object. Qed.

Lemma similar_article_keeps_title : keeps_title similar_article.
Proof. intros title d. apply similar_article_object. Qed.

(** The loop on an array of JSON objects, for either literal. *)
Lemma collect_articles_filter article items :
  keeps_title article ->
  Forall (fun item => is_object item = true) items ->
  exists articles,
    collect_articles article items [] = Ret articles /\
    Forall2 (article_of article) (filter carries_title items) articles /\
    Forall (fun a => carries_title a = true) articles /\
    length articles = length (filter carries_title items).
Proof.
  intros Hk Hobj.
  destruct (collect_articles_objects article items Hk Hobj [])
    as (articles & Hrun & Hall).
  exists articles. repeat split; try assumption.
  - eapply Forall2_carries; [exact Hk | apply filter_carries | exact Hall].
  - symmetry. eapply Forall2_length_eq. exact Hall.
Qed.

(** The loop on an array with an item that is not a JSON object: [item.get]
    raises on that item, whatever was collected before it. *)
Lemma collect_articles_non_object article items :
  keeps_title article ->
  Exists (fun item => is_object item = false) items ->
  forall results, exists e, collect_articles article items results = Raise e.
Proof.
  intros Hk Hex.
  induction Hex as [item rest Hitem | item rest _ IH]; intros results.
  - destruct item; try discriminate Hitem; eexists; reflexivity.
  - destruct item as [| | | | | |d]; try (eexists; reflexivity).
    cbn [collect_articles]. rewrite py_get_object. cbn [rbind].
    match goal with |- context [truthy ?t] => set (title := t) end.
    destruct (truthy title); cbn [negb].
    + destruct (Hk title d) as [a [Ha _]]. rewrite Ha. cbn [rbind]. apply IH.
    + apply IH.
Qed.

Lemma objects_or_not (items : list pyval) :
  Forall (fun item => is_object item = true) items \/
  Exists (fun item => is_object item = false) items.
Proof.
  induction items as [|item items [IH|IH]].
  - left. constructor.
  - destruct (is_object item) eqn:Hitem.
    + left. now constructor.
    + right. now constructor.
  - right. now constructor.
Qed.

(** What a [try] block makes of the loop, for either literal. *)
Lemma collect_articles_outcome article items :
  keeps_title article ->
  exists articles,
    recover [] (collect_articles article items []) = articles /\
    Forall (fun a => carries_title a = true) articles /\
    (Forall (fun item => is_object item = true) items ->
       Forall2 (article_of article) (filter carries_title items) articles /\
       length articles = length (filter carries_title items)) /\
    (Exists (fun item => is_object item = false) items -> articles = []).
Proof.
  intros Hk. destruct (objects_or_not items) as [Hobj|Hex].
  - destruct (collect_articles_filter article items Hk Hobj)
      as (articles & Hrun & Hall & Htitles & Hlen).
    exists articles. rewrite Hrun. split; [reflexivity|].
    split; [exact Htitles|]. split; [now split|].
    intros Hex. exfalso. clear - Hobj Hex.
    induction Hex as [item rest Hitem | item rest _ IH];
      inversion Hobj; subst; [congruence | now apply IH].
  - destruct (collect_articles_non_object article items Hk Hex []) as [e He].
    exists []. rewrite He. split; [reflexivity|]. split; [constructor|].
    split; [|reflexivity].
    intros Hobj. exfalso. clear - Hobj Hex.
    induction Hex as [item rest Hitem | item rest _ IH];
      inversion Hobj; subst; [congruence | now apply IH].
Qed.

(** C5, as the code has it.  For the result array [items] that [search_news]
    processes, and likewise for the one [search_similar_news_by_uuid]
    processes (each operation against its own reply): every returned Article
    has a non-empty title; when the items are all JSON objects, the returned
    Articles are built, in order, from exactly the items that carry a
    non-empty title, so that an item without one has no Article and the
    length of the returned list is the number of items that carry a non-empty
    title; when some item is not a JSON object, the returned list is empty. *)
Theorem titled_items_are_mapped :
  (forall upstream self query categories limit items,
      blank query = false ->
      delivers (upstream (search_request self query categories limit)) items ->
      exists found,
        value_of (search_news upstream self query categories limit) = Ret found /\
        Forall (fun a => carries_title a = true) found /\
        (Forall (fun item => is_object item = true) items ->
           Forall2 (article_of search_article) (filter carries_title items) found /\
           length found = length (filter carries_title items)) /\
        (Exists (fun item => is_object item = false) items -> found = [])) /\
  (forall upstream self uuid limit categories items,
      delivers (upstream (similar_request self uuid limit categories)) items ->
      exists similar,
        value_of (search_similar_news_by_uuid upstream self uuid limit categories)
          = Ret similar /\
        Forall (fun a => carries_title a = true) similar /\
        (Forall (fun item => is_object item = true) items ->
           Forall2 (article_of similar_article) (filter carries_title items) similar /\
           length similar = length (filter carries_title items)) /\
        (Exists (fun item => is_object item = false) items -> similar = [])).
Proof.
  split.
  - intros upstream self query categories limit items Hb Hd.
    destruct (collect_articles_outcome search_article items
                search_article_keeps_title) as (found & Hrun & Hrest).
    exists found. split; [|exact Hrest].
    unfold value_of. rewrite search_news_run by assumption. cbn [fst].
    now rewrite (search_news_response_delivers _ items Hd), Hrun.
  - intros upstream self uuid limit categories items Hd.
    destruct (collect_articles_outcome similar_article items
                similar_article_keeps_title) as (similar & Hrun & Hrest).
    exists similar. split; [|exact Hrest].
    unfold value_of. rewrite search_similar_news_by_uuid_run. cbn [fst].
    now rewrite (search_similar_news_by_uuid_response_delivers _ items Hd), Hrun.
Qed.

Lemma delivers_data_payload (status : Z) (items : list pyval) :
  ~ (400 <= status < 600) ->
  delivers (reply_with status (data_payload items)) items.
Proof.
  intros Hst. exists (mk_response status (Some (data_payload items))).
  eexists. split; [reflexivity|]. split; [exact Hst|].
  split; [reflexivity|]. split; [reflexivity|]. split; [|reflexivity].
  intros w Hw. discriminate Hw.
Qed.

(** An upstream that answers the two endpoints with different arrays: the
    search with three objects of which one has a non-empty title, the
    similarity search with an array that holds a number. *)
Lemma titled_items_are_mapped_witness :
  blank (str "Greenland") = false /\
  delivers
    (two_endpoints
       (search_request (new_client PNone) (str "Greenland") None 3))
    [titled "Trump Wants Greenland"; PDict []; titled ""] /\
  delivers
    (two_endpoints
       (similar_request (new_client PNone) (str "3dd16916") 3 None))
    [titled "Greenland Says NO!"; PInt 5] /\
  (exists found,
      value_of (search_news two_endpoints (new_client PNone)
                  (str "Greenland") None 3) = Ret found /\
      Forall (fun a => carries_title a = true) found /\
      Forall2 (article_of search_article)
        (filter carries_title [titled "Trump Wants Greenland"; PDict []; titled ""])
        found /\
      length found = 1%nat) /\
  value_of (search_similar_news_by_uuid two_endpoints (new_client PNone)
              (str "3dd16916") 3 None) = Ret [].
Proof.
  assert (Hb : blank (str "Greenland") = false) by reflexivity.
  assert (Hs : delivers
    (two_endpoints
       (search_request (new_client PNone) (str "Greenland") None 3))
    [titled "Trump Wants Greenland"; PDict []; titled ""]).
  { apply delivers_data_payload. lia. }
  assert (Hm : delivers
    (two_endpoints
       (similar_request (new_client PNone) (str "3dd16916") 3 None))
    [titled "Greenland Says NO!"; PInt 5]).
  { apply delivers_data_payload. lia. }
  split; [exact Hb|]. split; [exact Hs|]. split; [exact Hm|].
  destruct titled_items_are_mapped as [Hsearch Hsimilar].
  split.
  - destruct (Hsearch two_endpoints (new_client PNone) (str "Greenland") None 3
                [titled "Trump Wants Greenland"; PDict []; titled ""] Hb Hs)
      as (found & Hrun & Htitles & Hobjects & _).
    destruct Hobjects as [Hall Hlen]; [repeat constructor|].
    exists found. split; [exact Hrun|]. split; [exact Htitles|].
    split; [exact Hall | exact Hlen].
  - destruct (Hsimilar two_endpoints (new_client PNone) (str "3dd16916") 3 None
                [titled "Greenland Says NO!"; PInt 5] Hm)
      as (similar & Hrun & _ & _ & Hempty).
    rewrite Hrun. f_equal. apply Hempty.
    apply Exists_cons_tl. now apply Exists_cons_hd.
Defined.

(** C5 as stated fails on a result array that holds something else than
    objects: the array below has one item with a non-empty title, and both
    operations return the empty list, because the [AttributeError] of
    [item.get] on the number is caught by the last [except] clause. *)
Lemma non_object_item_empties_the_list :
  delivers (reply_with 200 (data_payload [titled "Trump Wants Greenland"; PInt 5]))
    [titled "Trump Wants Greenland"; PInt 5] /\
  length (filter carries_title [titled "Trump Wants Greenland"; PInt 5]) = 1%nat /\
  collect_articles search_article [titled "Trump Wants Greenland"; PInt 5] []
    = Raise AttributeError /\
  value_of (search_news
              (always (reply_with 200
                 (data_payload [titled "Trump Wants Greenland"; PInt 5])))
              (new_client PNone) (str "Greenland") None 3) = Ret [] /\
  value_of (search_similar_news_by_uuid
              (always (reply_with 200
                 (data_payload [titled "Trump Wants Greenland"; PInt 5])))
              (new_client PNone) (str "3dd16916") 3 None) = Ret [].
Proof.
  split; [apply delivers_data_payload; lia|].
  repeat split; reflexivity.
Qed.

(* ------------------------------------------------------------------------- *)
(** ** Failure containment in [search_news] *)
(* ------------------------------------------------------------------------- *)

Lemma search_news_response_failure (reply : http_reply) :
  transport_failure reply \/ reports_error reply ->
  recover [] (read_reply search_news_response reply) = [].
Proof.
  intros [Hf|(r & d & -> & Hbody & Herr)].
  - destruct Hf as [e|r Hst|r Hbody]; cbn [read_reply].
    + reflexivity.
    + unfold search_news_response. now rewrite raise_for_status_error.
    + unfold search_news_response, response_json.
      destruct (raise_for_status r); [|reflexivity]. now rewrite Hbody.
  - cbn [read_reply]. unfold search_news_response, response_json.
    destruct (raise_for_status r); [|reflexivity].
    rewrite Hbody. cbn [rbind py_in]. rewrite Herr.
    apply report_api_error_recover.
Qed.

(** C6, with the error statuses the code tests for.  When the reply to the
    request of [search_news] is a transport-level failure ([requests.get]
    raises a timeout, a connection error or any other exception; the status
    is a 4xx or 5xx status; the body is not JSON), or carries a JSON object
    with an [error] field, [search_news] returns the empty list: it returns
    a value, so no exception leaves the call. *)
Theorem failures_give_empty_list :
  forall upstream self query categories limit,
    transport_failure (upstream (search_request self query categories limit)) \/
    reports_error (upstream (search_request self query categories limit)) ->
    value_of (search_news upstream self query categories limit) = Ret [].
Proof.
  intros upstream self query categories limit Hfail. unfold value_of.
  destruct (blank query) eqn:Hb.
  - now rewrite search_news_blank by assumption.
  - rewrite search_news_run by assumption. cbn [fst].
    now rewrite search_news_response_failure.
Qed.

Lemma failures_give_empty_list_witness :
  (transport_failure
     (always (reply_with 503 (data_payload [titled "Trump Wants Greenland"]))
        (search_request (new_client PNone) (str "Greenland") None 1)) \/
   reports_error
     (always (reply_with 503 (data_payload [titled "Trump Wants Greenland"]))
        (search_request (new_client PNone) (str "Greenland") None 1))) /\
  value_of (search_news
              (always (reply_with 503 (data_payload [titled "Trump Wants Greenland"])))
              (new_client PNone) (str "Greenland") None 1) = Ret [].
Proof.
  assert (Hfail : transport_failure
     (always (reply_with 503 (data_payload [titled "Trump Wants Greenland"]))
        (search_request (new_client PNone) (str "Greenland") None 1))).
  { apply tf_error_status. unfold error_status. simpl. lia. }
  split; [now left|].
  apply (failures_give_empty_list
           (always (reply_with 503 (data_payload [titled "Trump Wants Greenland"])))
           (new_client PNone) (str "Greenland") None 1).
  now left.
Defined.

(** Each kind of failure, on a concrete reply. *)
Example failures_by_kind :
  let run reply :=
    value_of (search_news (always reply) (new_client PNone) (str "Greenland") None 1) in
  run (Fails Timeout) = Ret [] /\
  run (Fails ConnectionError) = Ret [] /\
  run (reply_with 404 (data_payload [titled "A"])) = Ret [] /\
  run (Replies {| status_code := 200; body := None |}) = Ret [] /\
  run (reply_with 200 (PDict [ (str "error", PDict [ (str "code", PStr (str "x")) ]);
                               (str "data", PList [titled "A"]) ])) = Ret [].
Proof. repeat split; reflexivity. Qed.

(** C6 as stated fails for the statuses outside 200..299 that are not error
    statuses: a 300 reply with a JSON payload is read like a 200 reply, and
    its titled item is returned. *)
Lemma non_2xx_reply_is_read :
  transport_failure_non_2xx
    (reply_with 300 (data_payload [titled "Trump Wants Greenland"])) /\
  raise_for_status
    {| status_code := 300;
       body := Some (data_payload [titled "Trump Wants Greenland"]) |} = Ret tt /\
  exists a,
    value_of (search_news
                (always (reply_with 300 (data_payload [titled "Trump Wants Greenland"])))
                (new_client PNone) (str "Greenland") None 1) = Ret [a] /\
    field "title" a = Some (PStr (str "Trump Wants Greenland")).
Proof.
  split; [|split].
  - apply tf2_status. unfold non_2xx. simpl. lia.
  - reflexivity.
  - eexists. split; reflexivity.
Qed.

(* ------------------------------------------------------------------------- *)
(** ** Defaults of the Article fields *)
(* ------------------------------------------------------------------------- *)

Lemma collect_articles_single article (d : pydict) (title a : pyval) :
  dict_lookup (str "title") d = Some title ->
  truthy title = true ->
  article title (PDict d) = Ret a ->
  collect_articles article [PDict d] [] = Ret [a].
Proof.
  intros Ht Htruthy Ha. cbn [collect_articles]. rewrite py_get_object, Ht.
  cbn [rbind]. rewrite Htruthy. cbn [negb]. now rewrite Ha.
Qed.

(** Both dictionary literals copy each optional field of the item, or put
    its default. *)
Lemma article_fields (title : pyval) (d : pydict) :
  exists a b,
    search_article title (PDict d) = Ret a /\
    similar_article title (PDict d) = Ret b /\
    forall k default, In (k, default) article_defaults ->
      field k a = Some (lookup_or d (str k) default) /\
      field k b = Some (lookup_or d (str k) default).
Proof.
  eexists. eexists.
  split; [unfold search_article; rewrite !py_get_object; reflexivity|].
  split; [unfold similar_article; rewrite !py_get_object; reflexivity|].
  intros k default Hin. unfold article_defaults in Hin. cbn [In] in Hin.
  repeat (destruct Hin as [Heq|Hin]; [injection Heq as <- <-; split; reflexivity|]).
  contradiction.
Qed.

(** C9. For an upstream item with a non-empty title, the Article that the
    loops of [search_news] and of [search_similar_news_by_uuid] build has the
    integer 0 under [uuid] and under [source] when the item has no such key,
    and the empty string under [description], [snippet], [published_at] and
    [url] when the item has no such key. *)
Theorem missing_fields_get_defaults :
  forall (d : pydict) (title : pyval),
    dict_lookup (str "title") d = Some title ->
    truthy title = true ->
    exists a b,
      collect_articles search_article [PDict d] [] = Ret [a] /\
      collect_articles similar_article [PDict d] [] = Ret [b] /\
      (forall k, In k ["uuid"; "source"]%string ->
         dict_lookup (str k) d = None ->
         field k a = Some (PInt 0) /\ field k b = Some (PInt 0)) /\
      (forall k, In k ["description"; "snippet"; "published_at"; "url"]%string ->
         dict_lookup (str k) d = None ->
         field k a = Some (PStr []) /\ field k b = Some (PStr [])).
Proof.
  intros d title Ht Htruthy.
  destruct (article_fields title d) as (a & b & Ha & Hb & Hfields).
  exists a, b.
  split; [now apply (collect_articles_single search_article d title)|].
  split; [now apply (collect_articles_single similar_article d title)|].
  split; intros k Hk Hnone.
  - assert (Hin : In (k, PInt 0) article_defaults).
    { unfold article_defaults.
      destruct Hk as [<-|[<-|[]]]; cbn [In]; tauto. }
    specialize (Hfields k (PInt 0) Hin). unfold lookup_or in Hfields.
    now rewrite Hnone in Hfields.
  - assert (Hin : In (k, PStr []) article_defaults).
    { unfold article_defaults.
      destruct Hk as [<-|[<-|[<-|[<-|[]]]]]; cbn [In]; tauto. }
    specialize (Hfields k (PStr []) Hin). unfold lookup_or in Hfields.
    now rewrite Hnone in Hfields.
Qed.

Lemma missing_fields_get_defaults_witness :
  dict_lookup (str "title") [ (str "title", PStr (str "Trump Wants Greenland")) ]
    = Some (PStr (str "Trump Wants Greenland")) /\
  truthy (PStr (str "Trump Wants Greenland")) = true /\
  exists a b,
    collect_articles search_article [titled "Trump Wants Greenland"] [] = Ret [a] /\
    collect_articles similar_article [titled "Trump Wants Greenland"] [] = Ret [b] /\
    (forall k, In k ["uuid"; "source"]%string ->
       dict_lookup (str k) [ (str "title", PStr (str "Trump Wants Greenland")) ]
         = None ->
       field k a = Some (PInt 0) /\ field k b = Some (PInt 0)) /\
    (forall k, In k ["description"; "snippet"; "published_at"; "url"]%string ->
       dict_lookup (str k) [ (str "title", PStr (str "Trump Wants Greenland")) ]
         = None ->
       field k a = Some (PStr []) /\ field k b = Some (PStr [])).
Proof.
  split; [reflexivity|]. split; [reflexivity|].
  apply (missing_fields_get_defaults
           [ (str "title", PStr (str "Trump Wants Greenland")) ]
           (PStr (str "Trump Wants Greenland"))); reflexivity.
Defined.

(** The Article of an item that has a title and nothing else. *)
Example title_only_article :
  value_of (search_news
              (always (reply_with 200 (data_payload [titled "Trump Wants Greenland"])))
              (new_client PNone) (str "Greenland") None 1)
  = Ret [ PDict [ (str "title", PStr (str "Trump Wants Greenland"));
                  (str "description", PStr (str ""));
                  (str "snippet", PStr (str ""));
                  (str "uuid", PInt 0);
                  (str "published_at", PStr (str ""));
                  (str "url", PStr (str ""));
                  (str "source", PInt 0) ] ].
Proof. reflexivity. Qed.

(* ------------------------------------------------------------------------- *)
(** ** The scenarios of the specification *)
(* ------------------------------------------------------------------------- *)

(** [search(query="Trump Greenland", limit=1)] when the upstream returns one
    item: status [success], count 1, and the item's title and uuid. *)
Example scenario_search_one_item :
  exists envelope a,
    value_of (tool_search
                (create_server
                   (always (reply_with 200 (data_payload
                      [ PDict [ (str "uuid", PStr (str "3dd16916-8d7d-4848-bf5f-6c95d3d68b88"));
                                (str "title", PStr (str "Trump Wants Greenland; Greenland Says NO!")) ] ])))
                   (PStr (str "token")))
                (str "Trump Greenland") 1 None) = Ret envelope /\
    field "status" envelope = Some (PStr (str "success")) /\
    field "count" envelope = Some (PInt 1) /\
    field "results" envelope = Some (PList [a]) /\
    field "title" a = Some (PStr (str "Trump Wants Greenland; Greenland Says NO!")) /\
    field "uuid" a = Some (PStr (str "3dd16916-8d7d-4848-bf5f-6c95d3d68b88")).
Proof. eexists. eexists. repeat split; reflexivity. Qed.

(** [get_article] when the upstream returns the flat record of the article:
    status [success] and the record's fields under [result]. *)
Example scenario_get_article :
  exists envelope a,
    value_of (tool_get_article
                (create_server
                   (always (reply_with 200
                      (PDict [ (str "uuid", PStr (str "3dd16916-8d7d-4848-bf5f-6c95d3d68b88"));
                               (str "title", PStr (str "Trump Wants Greenland; Greenland Says NO!"));
                               (str "snippet", PStr (str "..."));
                               (str "description", PStr (str "..."));
                               (str "url", PStr (str "https://example.org/a"));
                               (str "source", PStr (str "example.org")) ])))
                   (PStr (str "token")))
                (str "3dd16916-8d7d-4848-bf5f-6c95d3d68b88")) = Ret envelope /\
    field "status" envelope = Some (PStr (str "success")) /\
    field "result" envelope = Some a /\
    field "message" envelope = None /\
    field "title" a = Some (PStr (str "Trump Wants Greenland; Greenland Says NO!")) /\
    field "uuid" a = Some (PStr (str "3dd16916-8d7d-4848-bf5f-6c95d3d68b88")).
Proof. eexists. eexists. repeat split; reflexivity. Qed.

(** A valid query for which the upstream has no item: [no_results], count 0. *)
Example scenario_no_results :
  exists envelope message,
    value_of (tool_search
                (create_server (always (reply_with 200 (data_payload [])))
                   (PStr (str "token")))
                (str "Trump Greenland") 1 None) = Ret envelope /\
    field "status" envelope = Some (PStr (str "no_results")) /\
    field "count" envelope = Some (PInt 0) /\
    field "results" envelope = Some (PList []) /\
    field "message" envelope = Some (PStr message) /\ message <> [].
Proof. eexists. eexists. repeat split; try reflexivity. discriminate. Qed.

(* ------------------------------------------------------------------------- *)
(** ** More on trimming *)
(* ------------------------------------------------------------------------- *)

Lemma lstrip_head (s : pystr) c t :
  lstrip s = c :: t -> is_whitespace c = false.
Proof.
  induction s as [|x s IH]; simpl; [discriminate|].
  destruct (is_whitespace x) eqn:Hx; [exact IH|].
  intros H. injection H as <- _. exact Hx.
Qed.

(** A visible last character survives [lstrip]. *)
Lemma lstrip_keeps_last (x : pystr) c :
  is_whitespace c = false -> exists p, lstrip (x ++ [c]) = p ++ [c].
Proof.
  intros Hc. induction x as [|a x IH]; simpl.
  - rewrite Hc. now exists [].
  - destruct (is_whitespace a); [exact IH|]. now exists (a :: x).
Qed.

Lemma strip_head (s : pystr) c t :
  strip s = c :: t -> is_whitespace c = false.
Proof.
  unfold strip, rstrip. destruct (lstrip s) as [|c0 t0] eqn:Hl.
  - discriminate.
  - pose proof (lstrip_head s c0 t0 Hl) as Hc0.
    cbn [rev]. destruct (lstrip_keeps_last (rev t0) c0 Hc0) as [p Hp].
    rewrite Hp, rev_app_distr. cbn [rev app].
    intros H. injection H as <- _. exact Hc0.
Qed.

(** The search text of a query that is not blank: between 1 and 300
    characters, an initial segment of the trimmed query, starting with a
    visible character. *)
Lemma search_text_shape (query : pystr) :
  blank query = false ->
  1 <= len (search_text query) <= 300 /\
  (exists rest, strip query = search_text query ++ rest) /\
  (exists c t, search_text query = c :: t /\ is_whitespace c = false).
Proof.
  intros Hb. unfold search_text. cbv zeta.
  destruct (strip query) as [|c t] eqn:Hs.
  { apply strip_nil in Hs. congruence. }
  pose proof (strip_head query c t Hs) as Hc.
  destruct (Z.ltb_spec 300 (len (c :: t))) as [Hlong|Hshort].
  - split; [|split].
    + rewrite (len_firstn 100) by lia. lia.
    + exists (skipn 100 (c :: t)). unfold slice_to.
      now rewrite firstn_skipn.
    + exists c, (firstn 99 t). split; [reflexivity | exact Hc].
  - split; [|split].
    + unfold len in *. cbn [length] in *. lia.
    + exists []. now rewrite app_nil_r.
    + exists c, t. split; [reflexivity | exact Hc].
Qed.

(* ------------------------------------------------------------------------- *)
(** ** The request of [search_news] *)
(* ------------------------------------------------------------------------- *)

(** X1. [search_news] returns a list against every upstream and on every
    input: no exception leaves it.  On a blank query the list is empty and
    nothing is sent; on any other query exactly one request is sent, to the
    endpoint [/v1/news/all]. *)
Theorem search_news_sends_at_most_once :
  forall upstream self query categories limit,
    exists results,
      value_of (search_news upstream self query categories limit) = Ret results /\
      map req_url (calls_of (search_news upstream self query categories limit))
        = (if blank query then []
           else [str "https://api.thenewsapi.com/v1/news/all"]) /\
      (blank query = true -> results = []).
Proof.
  intros upstream self query categories limit. unfold value_of, calls_of.
  destruct (blank query) eqn:Hb.
  - rewrite search_news_blank by assumption. exists []. now repeat split.
  - rewrite search_news_run by assumption. eexists.
    split; [reflexivity|]. split; [reflexivity | discriminate].
Qed.

(** X2. The parameters [search_news] passes to [requests.get]: the client's
    token, domains and languages, and a [categories] entry exactly when the
    argument is a list that is not empty ([None] and [[]] both leave the key
    out). *)
Theorem search_news_params :
  forall upstream self query categories limit,
    blank query = false ->
    exists rq,
      calls_of (search_news upstream self query categories limit) = [rq] /\
      param "api_token" rq = Some (access_token self) /\
      param "domains" rq = Some (PList (map PStr (domains self))) /\
      param "language" rq = Some (PList (map PStr (languages self))) /\
      param "categories" rq
        = match categories with
          | Some (c :: cs) =>
              Some (PList (map (fun x => PStr (category_value x)) (c :: cs)))
          | _ => None
          end /\
      dict_keys (req_params rq)
        = [str "api_token"; str "search"; str "limit"; str "domains"; str "language"]
          ++ match categories with
             | Some (_ :: _) => [str "categories"]
             | _ => []
             end.
Proof.
  intros upstream self query categories limit Hb.
  exists (search_request self query categories limit).
  unfold calls_of. rewrite search_news_run by assumption.
  split; [reflexivity|].
  destruct categories as [[|c cs]|]; repeat split; reflexivity.
Qed.

Lemma search_news_params_witness :
  blank (str "Greenland") = false /\
  exists rq,
    calls_of (search_news (always (Fails Timeout)) (new_client (PStr (str "token")))
                (str "Greenland") (Some []) 1) = [rq] /\
    param "api_token" rq = Some (PStr (str "token")) /\
    param "domains" rq
      = Some (PList [PStr (str "nytimes.com"); PStr (str "bbc.com");
                     PStr (str "apnews.com")]) /\
    param "language" rq = Some (PList [PStr (str "en")]) /\
    param "categories" rq = None /\
    dict_keys (req_params rq)
      = [str "api_token"; str "search"; str "limit"; str "domains"; str "language"]
        ++ [].
Proof.
  split; [reflexivity|].
  apply (search_news_params (always (Fails Timeout)) (new_client (PStr (str "token")))
           (str "Greenland") (Some []) 1).
  reflexivity.
Defined.

(** X3. The search text of every request [search_news] sends has between 1
    and 300 characters, is an initial segment of the trimmed query, and starts
    with a character that is not whitespace. *)
Theorem search_text_is_bounded :
  forall upstream self query categories limit,
    Forall
      (fun rq =>
         exists text,
           param "search" rq = Some (PStr text) /\
           1 <= len text <= 300 /\
           (exists rest, strip query = text ++ rest) /\
           (exists c t, text = c :: t /\ is_whitespace c = false))
      (calls_of (search_news upstream self query categories limit)).
Proof.
  intros upstream self query categories limit. unfold calls_of.
  destruct (blank query) eqn:Hb.
  - rewrite search_news_blank by assumption. constructor.
  - rewrite search_news_run by assumption. cbn [snd app].
    constructor; [|constructor].
    exists (search_text query). split; [apply search_request_search|].
    now apply search_text_shape.
Qed.

(* ------------------------------------------------------------------------- *)
(** ** Invariants of the returned Articles *)
(* ------------------------------------------------------------------------- *)

Lemma search_article_is_article title item a :
  truthy title = true ->
  search_article title item = Ret a ->
  is_article search_article_keys a.
Proof.
  intros Ht. destruct item as [| | | | | |d]; try discriminate.
  unfold search_article. rewrite !py_get_object. cbn [rbind].
  intros H. injection H as <-. split.
  - unfold carries_title. cbn. exact Ht.
  - eexists. split; reflexivity.
Qed.

Lemma similar_article_is_article title item a :
  truthy title = true ->
  similar_article title item = Ret a ->
  is_article similar_article_keys a.
Proof.
  intros Ht. destruct item as [| | | | | |d]; try discriminate.
  unfold similar_article. rewrite !py_get_object. cbn [rbind].
  intros H. injection H as <-. split.
  - unfold carries_title. cbn. exact Ht.
  - eexists. split; reflexivity.
Qed.

(** What holds of every dictionary the literal builds holds of every element
    of the list the loop returns. *)
Lemma collect_articles_invariant (P : pyval -> Prop) article :
  (forall title item a,
      truthy title = true -> article title item = Ret a -> P a) ->
  forall items results returned,
    Forall P results ->
    collect_articles article items results = Ret returned ->
    Forall P returned.
Proof.
  intros Hart. induction items as [|item items IH]; intros results returned Hres.
  - cbn. intros H. now injection H as <-.
  - cbn [collect_articles].
    destruct (py_get item (str "title") PNone) as [title|]; [|discriminate].
    cbn [rbind]. destruct (truthy title) eqn:Ht; cbn [negb].
    + destruct (article title item) as [a|] eqn:Ha; [|discriminate].
      cbn [rbind]. apply IH. apply Forall_app. split; [exact Hres|].
      constructor; [|constructor]. now apply (Hart title item).
    + now apply IH.
Qed.

Lemma report_api_error_value {A} (data : pyval) (empty x : A) :
  report_api_error data empty = Ret x -> x = empty.
Proof.
  unfold report_api_error.
  destruct (py_getitem data (str "error")) as [info|]; [|discriminate].
  cbn [rbind]. destruct (py_get info (str "code") _); [|discriminate].
  cbn [rbind]. destruct (py_get info (str "info") _); [|discriminate].
  cbn [rbind]. intros H. now injection H.
Qed.

Lemma search_news_response_invariant (P : pyval -> Prop) r returned :
  (forall title item a,
      truthy title = true -> search_article title item = Ret a -> P a) ->
  search_news_response r = Ret returned -> Forall P returned.
Proof.
  intros Hart. unfold search_news_response.
  destruct (raise_for_status r); [|discriminate]. cbn [rbind].
  destruct (response_json r) as [data|]; [|discriminate]. cbn [rbind].
  destruct (py_in (str "error") data) as [[|]|]; [| |discriminate]; cbn [rbind].
  - intros H. apply report_api_error_value in H. subst. constructor.
  - destruct (log_warnings data); [|discriminate]. cbn [rbind].
    destruct (py_get data (str "data") (PList [])) as [sr|]; [|discriminate].
    cbn [rbind]. destruct (py_len sr); [|discriminate]. cbn [rbind].
    destruct (py_iter sr) as [items|]; [|discriminate]. cbn [rbind].
    apply (collect_articles_invariant P search_article Hart). constructor.
Qed.

Lemma search_similar_news_by_uuid_response_invariant (P : pyval -> Prop) r returned :
  (forall title item a,
      truthy title = true -> similar_article title item = Ret a -> P a) ->
  search_similar_news_by_uuid_response r = Ret returned -> Forall P returned.
Proof.
  intros Hart. unfold search_similar_news_by_uuid_response.
  destruct (raise_for_status r); [|discriminate]. cbn [rbind].
  destruct (response_json r) as [data|]; [|discriminate]. cbn [rbind].
  destruct (py_in (str "error") data) as [[|]|]; [| |discriminate]; cbn [rbind].
  - intros H. apply report_api_error_value in H. subst. constructor.
  - destruct (log_warnings data); [|discriminate]. cbn [rbind].
    destruct (py_get data (str "data") (PList [])) as [sr|]; [|discriminate].
    cbn [rbind]. destruct (py_iter sr) as [items|]; [|discriminate]. cbn [rbind].
    apply (collect_articles_invariant P similar_article Hart). constructor.
Qed.

Lemma recover_read_invariant {A} (P : A -> Prop) (read : response -> result (list A))
    (reply : http_reply) :
  (forall r returned, read r = Ret returned -> Forall P returned) ->
  Forall P (recover [] (read_reply read reply)).
Proof.
  intros Hread. destruct reply as [e|r]; cbn [read_reply recover].
  - constructor.
  - destruct (read r) as [returned|] eqn:Hr; [|constructor].
    now apply (Hread r).
Qed.

(** X4. Whatever the upstream answers, every element of the list returned by
    [search_news] and by [search_similar_news_by_uuid] is a dictionary with
    the seven keys of the operation's literal, in its order, and with a
    non-empty title. *)
Theorem returned_items_are_articles :
  forall upstream self query uuid categories limit,
    exists found similar,
      value_of (search_news upstream self query categories limit) = Ret found /\
      value_of (search_similar_news_by_uuid upstream self uuid limit categories)
        = Ret similar /\
      Forall (is_article search_article_keys) found /\
      Forall (is_article similar_article_keys) similar.
Proof.
  intros upstream self query uuid categories limit. unfold value_of.
  rewrite search_similar_news_by_uuid_run. cbn [fst].
  destruct (blank query) eqn:Hb.
  - rewrite search_news_blank by assumption. eexists. eexists.
    split; [reflexivity|]. split; [reflexivity|]. split; [constructor|].
    apply recover_read_invariant. intros r returned.
    apply search_similar_news_by_uuid_response_invariant.
    exact similar_article_is_article.
  - rewrite search_news_run by assumption. eexists. eexists.
    split; [reflexivity|]. split; [reflexivity|]. split.
    + apply recover_read_invariant. intros r returned.
      apply search_news_response_invariant. exact search_article_is_article.
    + apply recover_read_invariant. intros r returned.
      apply search_similar_news_by_uuid_response_invariant.
      exact similar_article_is_article.
Qed.

(* ------------------------------------------------------------------------- *)
(** ** Payloads of an unexpected shape *)
(* ------------------------------------------------------------------------- *)

Lemma py_get_non_object (x : pyval) (k : pystr) (default : pyval) :
  is_object x = false -> py_get x k default = Raise AttributeError.
Proof. destruct x; try reflexivity. discriminate. Qed.

(** The loop over elements none of which is an object: nothing is returned,
    by the empty loop or by the handler of the [AttributeError]. *)
Lemma collect_articles_non_objects article items :
  Forall (fun item => is_object item = false) items ->
  recover [] (collect_articles article items []) = [].
Proof.
  intros [|item rest Hitem _]; [reflexivity|].
  cbn [collect_articles]. now rewrite py_get_non_object.
Qed.

(** What the loop of [search_news] gets from a value that is not a list. *)
Lemma iterate_non_array article (v : pyval) :
  (forall items, v <> PList items) ->
  recover [] (_ <- py_len v ;; items <- py_iter v ;;
              collect_articles article items [])%R = [] /\
  recover [] (items <- py_iter v ;; collect_articles article items [])%R = [].
Proof.
  intros Hv. destruct v as [| | | |s|l|d]; try (split; reflexivity).
  - split; cbn [py_len py_iter rbind];
      apply collect_articles_non_objects, Forall_map, Forall_forall; reflexivity.
  - now contradiction (Hv l).
  - split; cbn [py_len py_iter rbind];
      apply collect_articles_non_objects, Forall_map, Forall_forall; reflexivity.
Qed.

Lemma search_news_response_non_array r (d : pydict) :
  body r = Some (PDict d) ->
  (forall items, dict_lookup (str "data") d <> Some (PList items)) ->
  recover [] (search_news_response r) = [].
Proof.
  intros Hbody Hdata. unfold search_news_response, response_json.
  destruct (raise_for_status r); [|reflexivity]. rewrite Hbody.
  cbn [rbind py_in]. destruct (dict_mem (str "error") d).
  - apply report_api_error_recover.
  - destruct (log_warnings (PDict d)); [|reflexivity]. cbn [rbind].
    rewrite py_get_object. cbn [rbind].
    destruct (dict_lookup (str "data") d) as [v|] eqn:Hv; [|reflexivity].
    apply iterate_non_array. intros items ->. now apply (Hdata items).
Qed.

Lemma search_similar_news_by_uuid_response_non_array r (d : pydict) :
  body r = Some (PDict d) ->
  (forall items, dict_lookup (str "data") d <> Some (PList items)) ->
  recover [] (search_similar_news_by_uuid_response r) = [].
Proof.
  intros Hbody Hdata. unfold search_similar_news_by_uuid_response, response_json.
  destruct (raise_for_status r); [|reflexivity]. rewrite Hbody.
  cbn [rbind py_in]. destruct (dict_mem (str "error") d).
  - apply report_api_error_recover.
  - destruct (log_warnings (PDict d)); [|reflexivity]. cbn [rbind].
    rewrite py_get_object. cbn [rbind].
    destruct (dict_lookup (str "data") d) as [v|] eqn:Hv; [|reflexivity].
    apply iterate_non_array. intros items ->. now apply (Hdata items).
Qed.

(** X5. When the JSON object of the reply has no [data] key, or a [data]
    that is not an array (null, a number, a string, an object), [search_news]
    returns the empty list, and so does [search_similar_news_by_uuid] (each
    on its own reply). *)
Theorem data_that_is_no_array_gives_empty_list :
  (forall upstream self query categories limit (d : pydict),
      has_payload (upstream (search_request self query categories limit)) d ->
      (forall items, dict_lookup (str "data") d <> Some (PList items)) ->
      value_of (search_news upstream self query categories limit) = Ret []) /\
  (forall upstream self uuid limit categories (d : pydict),
      has_payload (upstream (similar_request self uuid limit categories)) d ->
      (forall items, dict_lookup (str "data") d <> Some (PList items)) ->
      value_of (search_similar_news_by_uuid upstream self uuid limit categories)
        = Ret []).
Proof.
  split.
  - intros upstream self query categories limit d (r & Hr & Hbody) Hdata.
    unfold value_of. destruct (blank query) eqn:Hb.
    + now rewrite search_news_blank by assumption.
    + rewrite search_news_run by assumption. cbn [fst]. rewrite Hr.
      cbn [read_reply]. now rewrite (search_news_response_non_array r d).
  - intros upstream self uuid limit categories d (r & Hr & Hbody) Hdata.
    unfold value_of. rewrite search_similar_news_by_uuid_run. cbn [fst].
    rewrite Hr. cbn [read_reply].
    now rewrite (search_similar_news_by_uuid_response_non_array r d).
Qed.

(** The search endpoint answers with a [data] that is an object, the
    similarity endpoint with a proper array: the first result is empty, the
    second is not concerned. *)
Lemma data_that_is_no_array_gives_empty_list_witness :
  has_payload
    (data_is_object_on_search
       (search_request (new_client PNone) (str "Greenland") None 1))
    [ (str "data", titled "Trump Wants Greenland") ] /\
  (forall items,
      dict_lookup (str "data") [ (str "data", titled "Trump Wants Greenland") ]
      <> Some (PList items)) /\
  value_of (search_news data_is_object_on_search (new_client PNone)
              (str "Greenland") None 1) = Ret [].
Proof.
  assert (Hp : has_payload
    (data_is_object_on_search
       (search_request (new_client PNone) (str "Greenland") None 1))
    [ (str "data", titled "Trump Wants Greenland") ]).
  { eexists. split; reflexivity. }
  assert (Hd : forall items,
             dict_lookup (str "data") [ (str "data", titled "Trump Wants Greenland") ]
             <> Some (PList items)).
  { intros items H. discriminate H. }
  split; [exact Hp|]. split; [exact Hd|].
  exact (proj1 data_that_is_no_array_gives_empty_list
           data_is_object_on_search (new_client PNone) (str "Greenland") None 1
           [ (str "data", titled "Trump Wants Greenland") ] Hp Hd).
Defined.

Lemma log_warnings_non_object (d : pydict) (w : pyval) :
  dict_lookup (str "warnings") d = Some w -> is_object w = false ->
  log_warnings (PDict d) = Raise AttributeError.
Proof.
  intros Hw Hobj. unfold log_warnings, py_in, dict_mem, py_getitem.
  rewrite Hw. cbn [rbind]. destruct w; try reflexivity. discriminate.
Qed.

(** X6. When the JSON object of the reply has a [warnings] entry that is not
    an object (a string or a list, say), each of the three gateway operations
    returns its empty value on that reply, whatever else the payload holds:
    the failure of [.items()] is caught by the last [except] clause. *)
Theorem warnings_that_are_no_object_give_empty_result :
  (forall upstream self query categories limit (d : pydict) (w : pyval),
      has_payload (upstream (search_request self query categories limit)) d ->
      dict_lookup (str "warnings") d = Some w ->
      is_object w = false ->
      value_of (search_news upstream self query categories limit) = Ret []) /\
  (forall upstream self uuid (d : pydict) (w : pyval),
      has_payload (upstream (uuid_request self uuid)) d ->
      dict_lookup (str "warnings") d = Some w ->
      is_object w = false ->
      value_of (search_news_by_uuid upstream self uuid) = Ret (PList [])) /\
  (forall upstream self uuid limit categories (d : pydict) (w : pyval),
      has_payload (upstream (similar_request self uuid limit categories)) d ->
      dict_lookup (str "warnings") d = Some w ->
      is_object w = false ->
      value_of (search_similar_news_by_uuid upstream self uuid limit categories)
        = Ret []).
Proof.
  split; [|split].
  - intros upstream self query categories limit d w (r & Hr & Hbody) Hw Hobj.
    pose proof (log_warnings_non_object d w Hw Hobj) as Hlog.
    unfold value_of. destruct (blank query) eqn:Hb.
    + now rewrite search_news_blank by assumption.
    + rewrite search_news_run by assumption. cbn [fst]. rewrite Hr.
      cbn [read_reply]. unfold search_news_response, response_json.
      destruct (raise_for_status r); [|reflexivity]. rewrite Hbody.
      cbn [rbind py_in]. destruct (dict_mem (str "error") d).
      * now rewrite report_api_error_recover.
      * now rewrite Hlog.
  - intros upstream self uuid d w (r & Hr & Hbody) Hw Hobj.
    pose proof (log_warnings_non_object d w Hw Hobj) as Hlog.
    unfold value_of. rewrite search_news_by_uuid_run. cbn [fst]. rewrite Hr.
    cbn [read_reply]. unfold search_news_by_uuid_response, response_json.
    destruct (raise_for_status r); [|reflexivity]. rewrite Hbody.
    cbn [rbind py_in]. destruct (dict_mem (str "error") d).
    + now rewrite report_api_error_recover.
    + now rewrite Hlog.
  - intros upstream self uuid limit categories d w (r & Hr & Hbody) Hw Hobj.
    pose proof (log_warnings_non_object d w Hw Hobj) as Hlog.
    unfold value_of. rewrite search_similar_news_by_uuid_run. cbn [fst].
    rewrite Hr. cbn [read_reply].
    unfold search_similar_news_by_uuid_response, response_json.
    destruct (raise_for_status r); [|reflexivity]. rewrite Hbody.
    cbn [rbind py_in]. destruct (dict_mem (str "error") d).
    + now rewrite report_api_error_recover.
    + now rewrite Hlog.
Qed.

(** The identifier endpoint alone answers with the bad [warnings]. *)
Lemma warnings_that_are_no_object_give_empty_result_witness :
  has_payload
    (bad_warnings_on_lookup (uuid_request (new_client PNone) (str "3dd16916")))
    payload_with_bad_warnings /\
  dict_lookup (str "warnings") payload_with_bad_warnings
    = Some (PStr (str "slow")) /\
  is_object (PStr (str "slow")) = false /\
  value_of (search_news_by_uuid bad_warnings_on_lookup (new_client PNone)
              (str "3dd16916")) = Ret (PList []).
Proof.
  assert (Hp : has_payload
    (bad_warnings_on_lookup (uuid_request (new_client PNone) (str "3dd16916")))
    payload_with_bad_warnings).
  { eexists. split; reflexivity. }
  split; [exact Hp|]. split; [reflexivity|]. split; [reflexivity|].
  exact (proj1 (proj2 warnings_that_are_no_object_give_empty_result)
           bad_warnings_on_lookup (new_client PNone) (str "3dd16916")
           payload_with_bad_warnings (PStr (str "slow")) Hp eq_refl eq_refl).
Defined.

(* ------------------------------------------------------------------------- *)
(** ** The two dictionary literals *)
(* ------------------------------------------------------------------------- *)

Lemma pystr_eqb_both (k a b : pystr) :
  pystr_eqb k a = true -> pystr_eqb k b = true -> a = b.
Proof.
  intros Ha Hb. apply pystr_eqb_eq in Ha, Hb. congruence.
Qed.

(** X7. On one item the literal of [search_news] and the literal of
    [search_similar_news_by_uuid] build dictionaries that agree on every key
    (they differ in the order of the keys only); under each optional key is
    the item's own value when the item has the key, a null included, and the
    default only when the key is absent. *)
Theorem article_literals_agree :
  forall (title : pyval) (d : pydict),
    exists a b,
      search_article title (PDict d) = Ret (PDict a) /\
      similar_article title (PDict d) = Ret (PDict b) /\
      (forall k : pystr, dict_lookup k a = dict_lookup k b) /\
      dict_lookup (str "title") a = Some title /\
      (forall k default, In (k, default) article_defaults ->
         dict_lookup (str k) a
         = Some (match dict_lookup (str k) d with
                 | Some v => v
                 | None => default
                 end)).
Proof.
  intros title d. eexists. eexists.
  split; [unfold search_article; rewrite !py_get_object; reflexivity|].
  split; [unfold similar_article; rewrite !py_get_object; reflexivity|].
  split; [|split].
  - intros k. cbn [dict_lookup].
    destruct (pystr_eqb k (str "title")); [reflexivity|].
    destruct (pystr_eqb k (str "description")); [reflexivity|].
    destruct (pystr_eqb k (str "snippet")); [reflexivity|].
    destruct (pystr_eqb k (str "uuid")); [reflexivity|].
    destruct (pystr_eqb k (str "published_at")) eqn:Hp,
             (pystr_eqb k (str "url")) eqn:Hu,
             (pystr_eqb k (str "source")) eqn:Hs;
      try reflexivity.
    + discriminate (pystr_eqb_both _ _ _ Hp Hs).
    + discriminate (pystr_eqb_both _ _ _ Hp Hs).
    + discriminate (pystr_eqb_both _ _ _ Hu Hs).
  - reflexivity.
  - intros k default Hin. unfold article_defaults in Hin. cbn [In] in Hin.
    repeat (destruct Hin as [Heq|Hin]; [injection Heq as <- <-; reflexivity|]).
    contradiction.
Qed.

(* ------------------------------------------------------------------------- *)
(** ** The identifier lookup *)
(* ------------------------------------------------------------------------- *)

Lemma pick_keys_keys (data : pyval) (keys : list pystr) (picked : pydict) :
  pick_keys data keys = Ret picked -> dict_keys picked = keys.
Proof.
  revert picked. induction keys as [|k keys IH]; intros picked; cbn [pick_keys].
  - intros H. now injection H as <-.
  - destruct (py_getitem data k) as [v|]; [|discriminate]. cbn [rbind].
    destruct (pick_keys data keys) as [rest|]; [|discriminate]. cbn [rbind].
    intros H. injection H as <-. cbn. f_equal. now apply IH.
Qed.

Lemma pick_keys_present (d : pydict) (keys : list pystr) :
  (forall k, In k keys -> dict_lookup k d <> None) ->
  pick_keys (PDict d) keys
  = Ret (map (fun k => (k, lookup_or d k PNone)) keys).
Proof.
  induction keys as [|k keys IH]; intros Hall; [reflexivity|].
  cbn [pick_keys py_getitem map]. unfold lookup_or at 1.
  destruct (dict_lookup k d) as [v|] eqn:Hk.
  - cbn [rbind]. rewrite IH; [reflexivity|].
    intros k' Hin. apply Hall. now right.
  - exfalso. apply (Hall k); [now left | exact Hk].
Qed.

Lemma dict_lookup_tabulate (f : pystr -> pyval) (keys : list pystr) (k : pystr) :
  (In k keys -> dict_lookup k (map (fun x => (x, f x)) keys) = Some (f k)) /\
  (~ In k keys -> dict_lookup k (map (fun x => (x, f x)) keys) = None).
Proof.
  induction keys as [|x keys [IHin IHout]]; cbn [map dict_lookup In]; split;
    try tauto.
  - intros Hin. destruct (pystr_eqb k x) eqn:Hkx.
    + apply pystr_eqb_eq in Hkx. now subst.
    + destruct Hin as [->|Hin]; [|now apply IHin].
      assert (H : pystr_eqb k k = true) by now apply pystr_eqb_eq.
      congruence.
  - intros Hout. destruct (pystr_eqb k x) eqn:Hkx.
    + apply pystr_eqb_eq in Hkx. subst. tauto.
    + apply IHout. tauto.
Qed.

(** What [search_news_by_uuid] makes of a response: the empty list, or a
    dictionary with the six keys. *)
Lemma search_news_by_uuid_response_cases (r : response) :
  recover (PList []) (search_news_by_uuid_response r) = PList [] \/
  exists picked,
    recover (PList []) (search_news_by_uuid_response r) = PDict picked /\
    dict_keys picked = article_keys.
Proof.
  unfold search_news_by_uuid_response.
  destruct (raise_for_status r); [|now left]. cbn [rbind].
  destruct (response_json r) as [data|]; [|now left]. cbn [rbind].
  destruct (py_in (str "error") data) as [[|]|]; [| |now left]; cbn [rbind].
  - left. apply report_api_error_recover.
  - destruct (log_warnings data); [|now left]. cbn [rbind].
    destruct (pick_keys data article_keys) as [picked|] eqn:Hp; [|now left].
    right. exists picked. split; [reflexivity|]. now apply pick_keys_keys in Hp.
Qed.

(** X8. [search_news_by_uuid] on a successful reply whose JSON object has the
    six keys [uuid], [title], [snippet], [description], [url], [source] (no
    [error], [warnings] absent or an object): the result is a dictionary with
    exactly these six keys, each with the payload's own value; every other
    field of the payload, [published_at] for one, is left out. *)
Theorem identifier_lookup_picks_six_keys :
  forall upstream self uuid (d : pydict),
    answers_object (upstream (uuid_request self uuid)) d ->
    dict_lookup (str "error") d = None ->
    (forall w, dict_lookup (str "warnings") d = Some w -> is_object w = true) ->
    (forall k, In k article_keys -> dict_lookup k d <> None) ->
    exists picked,
      value_of (search_news_by_uuid upstream self uuid) = Ret (PDict picked) /\
      dict_keys picked = article_keys /\
      (forall k, In k article_keys -> dict_lookup k picked = dict_lookup k d) /\
      (forall k, ~ In k article_keys -> dict_lookup k picked = None).
Proof.
  intros upstream self uuid d (r & Hr & Hst & Hbody) Herr Hw Hkeys.
  exists (map (fun k => (k, lookup_or d k PNone)) article_keys).
  split; [|split; [|split]].
  - unfold value_of. rewrite search_news_by_uuid_run. cbn [fst].
    rewrite Hr. cbn [read_reply].
    unfold search_news_by_uuid_response, response_json.
    rewrite raise_for_status_ok, Hbody by assumption. cbn [rbind py_in].
    rewrite dict_mem_lookup by assumption. cbn [rbind].
    rewrite log_warnings_object by assumption. cbn [rbind].
    now rewrite pick_keys_present.
  - unfold dict_keys. rewrite map_map. cbn [fst]. apply map_id.
  - intros k Hin.
    rewrite (proj1 (dict_lookup_tabulate (fun x => lookup_or d x PNone)
                      article_keys k) Hin).
    unfold lookup_or. specialize (Hkeys k Hin).
    now destruct (dict_lookup k d).
  - intros k Hout.
    apply (proj2 (dict_lookup_tabulate (fun x => lookup_or d x PNone)
                    article_keys k) Hout).
Qed.

Lemma flat_record_has_keys (k : pystr) :
  In k article_keys -> dict_lookup k flat_record <> None.
Proof.
  unfold article_keys. cbn [In]. intros Hin.
  repeat (destruct Hin as [<-|Hin]; [discriminate|]). contradiction.
Qed.

Lemma identifier_lookup_picks_six_keys_witness :
  answers_object
    (always (reply_with 200 (PDict flat_record))
       (uuid_request (new_client PNone) (str "3dd16916-8d7d-4848-bf5f-6c95d3d68b88")))
    flat_record /\
  dict_lookup (str "error") flat_record = None /\
  exists picked,
    value_of (search_news_by_uuid (always (reply_with 200 (PDict flat_record)))
                (new_client PNone) (str "3dd16916-8d7d-4848-bf5f-6c95d3d68b88"))
      = Ret (PDict picked) /\
    dict_keys picked = article_keys /\
    (forall k, In k article_keys -> dict_lookup k picked = dict_lookup k flat_record) /\
    (forall k, ~ In k article_keys -> dict_lookup k picked = None).
Proof.
  assert (Ha : answers_object
    (always (reply_with 200 (PDict flat_record))
       (uuid_request (new_client PNone) (str "3dd16916-8d7d-4848-bf5f-6c95d3d68b88")))
    flat_record).
  { eexists. split; [reflexivity|]. split; [|reflexivity].
    unfold error_status. simpl. lia. }
  split; [exact Ha|]. split; [reflexivity|].
  apply (identifier_lookup_picks_six_keys
           (always (reply_with 200 (PDict flat_record))) (new_client PNone)
           (str "3dd16916-8d7d-4848-bf5f-6c95d3d68b88") flat_record).
  - exact Ha.
  - reflexivity.
  - intros w Hw. discriminate Hw.
  - exact flat_record_has_keys.
Defined.

(** The result on [flat_record]: the null [description] is kept, the
    [published_at] of the payload is gone. *)
Example flat_record_lookup :
  exists picked,
    value_of (search_news_by_uuid (always (reply_with 200 (PDict flat_record)))
                (new_client PNone) (str "3dd16916-8d7d-4848-bf5f-6c95d3d68b88"))
      = Ret picked /\
    field "description" picked = Some PNone /\
    field "published_at" picked = None.
Proof. eexists. repeat split; reflexivity. Qed.

(** X9. [search_news_by_uuid] sends exactly one request for every
    identifier, the blank ones included, to [/v1/news/uuid/] followed by the
    identifier as given, with the token as only parameter; it raises nothing,
    and what it returns is either the empty list or a dictionary with exactly
    the six keys. *)
Theorem identifier_lookup_always_answers :
  forall upstream self uuid,
    calls_of (search_news_by_uuid upstream self uuid)
      = [ {| req_url := str "https://api.thenewsapi.com/v1/news/uuid/" ++ uuid;
             req_params := [ (str "api_token", access_token self) ] |} ] /\
    (value_of (search_news_by_uuid upstream self uuid) = Ret (PList []) \/
     exists picked,
       value_of (search_news_by_uuid upstream self uuid) = Ret (PDict picked) /\
       dict_keys picked = article_keys).
Proof.
  intros upstream self uuid. unfold value_of, calls_of.
  rewrite search_news_by_uuid_run. cbn [fst snd app].
  split; [reflexivity|].
  destruct (upstream (uuid_request self uuid)) as [e|r]; cbn [read_reply].
  - now left.
  - destruct (search_news_by_uuid_response_cases r) as [H|(picked & H & Hk)].
    + left. now rewrite H.
    + right. exists picked. now rewrite H.
Qed.

Lemma search_news_by_uuid_response_failure (reply : http_reply) :
  transport_failure reply \/ reports_error reply ->
  recover (PList []) (read_reply search_news_by_uuid_response reply) = PList [].
Proof.
  intros [Hf|(r & d & -> & Hbody & Herr)].
  - destruct Hf as [e|r Hst|r Hbody]; cbn [read_reply].
    + reflexivity.
    + unfold search_news_by_uuid_response. now rewrite raise_for_status_error.
    + unfold search_news_by_uuid_response, response_json.
      destruct (raise_for_status r); [|reflexivity]. now rewrite Hbody.
  - cbn [read_reply]. unfold search_news_by_uuid_response, response_json.
    destruct (raise_for_status r); [|reflexivity].
    rewrite Hbody. cbn [rbind py_in]. rewrite Herr.
    apply report_api_error_recover.
Qed.

(* ------------------------------------------------------------------------- *)
(** ** The similarity search *)
(* ------------------------------------------------------------------------- *)

Lemma clamp_limit_range (limit : Z) : 1 <= clamp_limit limit <= 3.
Proof.
  unfold clamp_limit.
  destruct (Z.leb_spec limit 0), (Z.ltb_spec 3 limit); lia.
Qed.

(** X11. [search_similar_news_by_uuid] sends exactly one request for every
    identifier and limit, to [/v1/news/similar/] followed by the identifier as
    given.  Its [limit] parameter is between 1 and 3 (the argument itself when
    that is in the range), and, unlike [search_news], it always passes a
    [categories] entry: [None] when no list was given. *)
Theorem similar_request_parameters :
  forall upstream self uuid limit categories,
    exists rq n,
      calls_of (search_similar_news_by_uuid upstream self uuid limit categories)
        = [rq] /\
      req_url rq = str "https://api.thenewsapi.com/v1/news/similar/" ++ uuid /\
      param "limit" rq = Some (PInt n) /\
      1 <= n <= 3 /\ (1 <= limit <= 3 -> n = limit) /\
      param "categories" rq
        = Some (match categories with
                | None => PNone
                | Some cs => PList (map (fun c => PStr (category_value c)) cs)
                end) /\
      param "api_token" rq = Some (access_token self) /\
      dict_keys (req_params rq)
        = [str "api_token"; str "limit"; str "categories"; str "domains";
           str "language"].
Proof.
  intros upstream self uuid limit categories.
  exists (similar_request self uuid limit categories), (clamp_limit limit).
  unfold calls_of. rewrite search_similar_news_by_uuid_run.
  split; [reflexivity|]. split; [reflexivity|]. split; [reflexivity|].
  split; [apply clamp_limit_range|].
  split; [apply clamp_limit_spec|].
  destruct categories; repeat split; reflexivity.
Qed.

Lemma search_similar_news_by_uuid_response_failure (reply : http_reply) :
  transport_failure reply \/ reports_error reply ->
  recover [] (read_reply search_similar_news_by_uuid_response reply) = [].
Proof.
  intros [Hf|(r & d & -> & Hbody & Herr)].
  - destruct Hf as [e|r Hst|r Hbody]; cbn [read_reply].
    + reflexivity.
    + unfold search_similar_news_by_uuid_response.
      now rewrite raise_for_status_error.
    + unfold search_similar_news_by_uuid_response, response_json.
      destruct (raise_for_status r); [|reflexivity]. now rewrite Hbody.
  - cbn [read_reply]. unfold search_similar_news_by_uuid_response, response_json.
    destruct (raise_for_status r); [|reflexivity].
    rewrite Hbody. cbn [rbind py_in]. rewrite Herr.
    apply report_api_error_recover.
Qed.

(** X12. When [requests.get] raises, or the status is a 4xx or 5xx status, or
    the body is not JSON, or the JSON object has an [error] field,
    [search_similar_news_by_uuid] returns [[]], and so does
    [search_news_by_uuid] when its own request fails in one of these ways:
    each returns, so nothing is raised to the caller. *)
Theorem lookups_contain_failures :
  (forall upstream self uuid limit categories,
      (transport_failure (upstream (similar_request self uuid limit categories)) \/
       reports_error (upstream (similar_request self uuid limit categories))) ->
      value_of (search_similar_news_by_uuid upstream self uuid limit categories)
        = Ret []) /\
  (forall upstream self uuid,
      (transport_failure (upstream (uuid_request self uuid)) \/
       reports_error (upstream (uuid_request self uuid))) ->
      value_of (search_news_by_uuid upstream self uuid) = Ret (PList [])).
Proof.
  split.
  - intros upstream self uuid limit categories Hfail. unfold value_of.
    rewrite search_similar_news_by_uuid_run. cbn [fst].
    now rewrite search_similar_news_by_uuid_response_failure by assumption.
  - intros upstream self uuid Hfail. unfold value_of.
    rewrite search_news_by_uuid_run. cbn [fst].
    now rewrite search_news_by_uuid_response_failure by assumption.
Qed.

(** On [similar_is_down] the similarity call alone fails. *)
Lemma lookups_contain_failures_witness :
  transport_failure
    (similar_is_down (similar_request (new_client PNone) (str "3dd16916") 2 None)) /\
  value_of (search_similar_news_by_uuid similar_is_down (new_client PNone)
              (str "3dd16916") 2 None) = Ret [].
Proof.
  assert (Hf : transport_failure
    (similar_is_down (similar_request (new_client PNone) (str "3dd16916") 2 None))).
  { apply tf_raises. }
  split; [exact Hf|].
  exact (proj1 lookups_contain_failures similar_is_down (new_client PNone)
           (str "3dd16916") 2 None (or_introl Hf)).
Defined.

(* ------------------------------------------------------------------------- *)
(** ** The tool [get_article] on the server's client *)
(* ------------------------------------------------------------------------- *)

Lemma tool_get_article_run upstream access_token uuid log :
  blank uuid = false ->
  tool_get_article (create_server upstream access_token) uuid log
  = (Ret (get_article_response uuid
            (recover (PList [])
               (read_reply search_news_by_uuid_response
                  (upstream (uuid_request (new_client access_token) uuid))))),
     log ++ [uuid_request (new_client access_token) uuid]).
Proof.
  intros Hb. cbn [tool_get_article create_server].
  apply get_article_run; [assumption|].
  cbn [client_search_news_by_uuid the_client]. apply search_news_by_uuid_run.
Qed.

(** X13. For every identifier that is empty or made of whitespace only,
    [get_article] returns an envelope with status [error], the identifier as
    given and a non-empty [message]; the envelope is the same for every client
    object, which is not called, and the server sends no request. *)
Theorem get_article_blank_uuid_is_error :
  forall (g : NewsGateway) uuid log,
    blank uuid = true ->
    exists envelope message,
      get_article g uuid log = (Ret envelope, log) /\
      field "status" envelope = Some (PStr (str "error")) /\
      field "uuid" envelope = Some (PStr uuid) /\
      field "message" envelope = Some (PStr message) /\ message <> [] /\
      (forall g' : NewsGateway, get_article g' uuid log = (Ret envelope, log)) /\
      (forall upstream access_token,
          calls_of (tool_get_article (create_server upstream access_token) uuid)
          = []).
Proof.
  intros g uuid log Hb.
  eexists. exists (str "Empty search query provided").
  split; [now rewrite get_article_blank by assumption|].
  repeat split; try reflexivity; try discriminate.
  - intros g'. now rewrite get_article_blank by assumption.
  - intros upstream access_token. unfold calls_of.
    cbn [tool_get_article create_server].
    now rewrite get_article_blank by assumption.
Qed.

Lemma get_article_blank_uuid_is_error_witness :
  blank (str " ") = true /\
  exists envelope message,
    get_article (the_client (always (Fails Timeout)) PNone) (str " ") []
      = (Ret envelope, []) /\
    field "status" envelope = Some (PStr (str "error")) /\
    field "uuid" envelope = Some (PStr (str " ")) /\
    field "message" envelope = Some (PStr message) /\ message <> [] /\
    (forall g' : NewsGateway, get_article g' (str " ") [] = (Ret envelope, [])) /\
    (forall upstream access_token,
        calls_of (tool_get_article (create_server upstream access_token) (str " "))
        = []).
Proof.
  split; [reflexivity|].
  apply (get_article_blank_uuid_is_error
           (the_client (always (Fails Timeout)) PNone) (str " ") []).
  reflexivity.
Defined.

Lemma picked_is_truthy (picked : pydict) :
  dict_keys picked = article_keys -> truthy (PDict picked) = true.
Proof. destruct picked; [discriminate | reflexivity]. Qed.

(** X14. On an identifier that is not blank the tool [get_article] of the
    server sends one request, whose URL ends with the identifier as given, and
    returns an envelope with the identifier under [uuid] and one of two
    shapes: status [success], a dictionary with the six keys under [result]
    and no [message]; or status [no_results], the empty list under [result]
    and the explanatory [message]. *)
Theorem get_article_outcomes :
  forall upstream access_token uuid,
    blank uuid = false ->
    exists envelope,
      value_of (tool_get_article (create_server upstream access_token) uuid)
        = Ret envelope /\
      map req_url
          (calls_of (tool_get_article (create_server upstream access_token) uuid))
        = [str "https://api.thenewsapi.com/v1/news/uuid/" ++ uuid] /\
      field "uuid" envelope = Some (PStr uuid) /\
      ((field "status" envelope = Some (PStr (str "success")) /\
        (exists picked,
            field "result" envelope = Some (PDict picked) /\
            dict_keys picked = article_keys) /\
        field "message" envelope = None) \/
       (field "status" envelope = Some (PStr (str "no_results")) /\
        field "result" envelope = Some (PList []) /\
        field "message" envelope = Some (PStr no_results_message))).
Proof.
  intros upstream access_token uuid Hb. unfold value_of, calls_of.
  rewrite tool_get_article_run by assumption. cbn [fst snd app map].
  eexists. split; [reflexivity|]. split; [reflexivity|].
  set (result := recover (PList []) _).
  destruct (get_article_response_fields uuid result) as (Hu & Hr & Hs & Hm).
  split; [exact Hu|].
  assert (Hcases : result = PList [] \/
                   exists picked, result = PDict picked /\
                                  dict_keys picked = article_keys).
  { subst result.
    destruct (upstream (uuid_request (new_client access_token) uuid)) as [e|r];
      cbn [read_reply]; [now left|].
    apply search_news_by_uuid_response_cases. }
  destruct Hcases as [Hempty|(picked & Hp & Hk)].
  - right. rewrite Hempty in *. cbn [truthy] in Hs, Hm. now repeat split.
  - left. rewrite Hp in *. rewrite (picked_is_truthy picked Hk) in Hs, Hm.
    split; [exact Hs|]. split; [|exact Hm]. now exists picked.
Qed.

Lemma get_article_outcomes_witness :
  blank (str " 3dd16916 ") = false /\
  exists envelope,
    value_of (tool_get_article
                (create_server (always (reply_with 200 (PDict flat_record))) PNone)
                (str " 3dd16916 ")) = Ret envelope /\
    map req_url
        (calls_of (tool_get_article
                     (create_server (always (reply_with 200 (PDict flat_record))) PNone)
                     (str " 3dd16916 ")))
      = [str "https://api.thenewsapi.com/v1/news/uuid/" ++ str " 3dd16916 "] /\
    field "uuid" envelope = Some (PStr (str " 3dd16916 ")) /\
    ((field "status" envelope = Some (PStr (str "success")) /\
      (exists picked,
          field "result" envelope = Some (PDict picked) /\
          dict_keys picked = article_keys) /\
      field "message" envelope = None) \/
     (field "status" envelope = Some (PStr (str "no_results")) /\
      field "result" envelope = Some (PList []) /\
      field "message" envelope = Some (PStr no_results_message))).
Proof.
  split; [reflexivity|].
  apply (get_article_outcomes (always (reply_with 200 (PDict flat_record))) PNone
           (str " 3dd16916 ")).
  reflexivity.
Defined.

(** X10. When the lookup fails (an exception of [requests.get], a 4xx or 5xx
    status, a body that is not JSON, an [error] field), the tool
    [get_article] reports it as [no_results], with the empty list under
    [result] and the explanatory message: never as [error], and never by
    raising. *)
Theorem failed_lookup_reports_no_results :
  forall upstream access_token uuid,
    blank uuid = false ->
    (transport_failure (upstream (uuid_request (new_client access_token) uuid)) \/
     reports_error (upstream (uuid_request (new_client access_token) uuid))) ->
    exists envelope,
      value_of (tool_get_article (create_server upstream access_token) uuid)
        = Ret envelope /\
      field "status" envelope = Some (PStr (str "no_results")) /\
      field "result" envelope = Some (PList []) /\
      field "message" envelope = Some (PStr no_results_message).
Proof.
  intros upstream access_token uuid Hb Hfail. unfold value_of.
  rewrite tool_get_article_run by assumption. cbn [fst].
  rewrite search_news_by_uuid_response_failure by assumption.
  eexists. split; [reflexivity|]. now repeat split.
Qed.

Lemma failed_lookup_reports_no_results_witness :
  blank (str "3dd16916") = false /\
  transport_failure
    (always (Fails ConnectionError)
       (uuid_request (new_client PNone) (str "3dd16916"))) /\
  exists envelope,
    value_of (tool_get_article (create_server (always (Fails ConnectionError)) PNone)
                (str "3dd16916")) = Ret envelope /\
    field "status" envelope = Some (PStr (str "no_results")) /\
    field "result" envelope = Some (PList []) /\
    field "message" envelope = Some (PStr no_results_message).
Proof.
  split; [reflexivity|]. split; [constructor|].
  apply (failed_lookup_reports_no_results (always (Fails ConnectionError)) PNone
           (str "3dd16916")); [reflexivity | left; constructor].
Defined.

(* ------------------------------------------------------------------------- *)
(** ** The tools of the server, on every input *)
(* ------------------------------------------------------------------------- *)

Lemma search_news_response_empty_array (reply : http_reply) :
  delivers reply [] ->
  recover [] (read_reply search_news_response reply) = [].
Proof.
  intros H. now rewrite (search_news_response_delivers reply [] H).
Qed.

(** X15. For the tool [search] a failed upstream call and an upstream that
    has no item are the same: on a query that is not blank, when the call
    fails (exception of [requests.get], 4xx or 5xx status, body that is not
    JSON, [error] field) the envelope is the one returned against an upstream
    that delivers the empty array, with status [no_results], count 0 and the
    explanatory message. *)
Theorem failure_looks_like_no_results :
  forall failing empty access_token query limit categories,
    blank query = false ->
    (transport_failure
       (failing (search_request (new_client access_token) query categories
                   (validated_limit limit))) \/
     reports_error
       (failing (search_request (new_client access_token) query categories
                   (validated_limit limit)))) ->
    delivers
      (empty (search_request (new_client access_token) query categories
                (validated_limit limit))) [] ->
    exists envelope,
      value_of (tool_search (create_server failing access_token)
                  query limit categories) = Ret envelope /\
      value_of (tool_search (create_server empty access_token)
                  query limit categories) = Ret envelope /\
      field "status" envelope = Some (PStr (str "no_results")) /\
      field "count" envelope = Some (PInt 0) /\
      field "results" envelope = Some (PList []) /\
      field "message" envelope = Some (PStr no_results_message).
Proof.
  intros failing empty access_token query limit categories Hb Hfail Hempty.
  unfold value_of. rewrite !tool_search_run by assumption. cbn [fst].
  rewrite search_news_response_failure by assumption.
  rewrite search_news_response_empty_array by assumption.
  eexists. repeat split; reflexivity.
Qed.

Lemma failure_looks_like_no_results_witness :
  blank (str "Greenland") = false /\
  transport_failure
    (always (Fails Timeout)
       (search_request (new_client PNone) (str "Greenland") None (validated_limit 1))) /\
  delivers
    (always (reply_with 200 (data_payload []))
       (search_request (new_client PNone) (str "Greenland") None (validated_limit 1)))
    [] /\
  exists envelope,
    value_of (tool_search (create_server (always (Fails Timeout)) PNone)
                (str "Greenland") 1 None) = Ret envelope /\
    value_of (tool_search
                (create_server (always (reply_with 200 (data_payload []))) PNone)
                (str "Greenland") 1 None) = Ret envelope /\
    field "status" envelope = Some (PStr (str "no_results")) /\
    field "count" envelope = Some (PInt 0) /\
    field "results" envelope = Some (PList []) /\
    field "message" envelope = Some (PStr no_results_message).
Proof.
  assert (Hd : delivers
    (always (reply_with 200 (data_payload []))
       (search_request (new_client PNone) (str "Greenland") None (validated_limit 1)))
    []).
  { apply delivers_data_payload. lia. }
  split; [reflexivity|]. split; [constructor|]. split; [exact Hd|].
  apply (failure_looks_like_no_results (always (Fails Timeout))
           (always (reply_with 200 (data_payload []))) PNone
           (str "Greenland") 1 None).
  - reflexivity.
  - left. constructor.
  - exact Hd.
Defined.

(** X16. Against every upstream and on every input each tool of the server
    returns an envelope (it raises nothing) whose [status] is one of
    [success], [no_results], [error]; the status is [error] exactly when the
    query, or the identifier, is blank, and the call sends one request when
    it is not blank and none when it is. *)
Theorem tools_always_answer :
  forall upstream access_token query limit categories uuid,
    (exists envelope status,
        value_of (tool_search (create_server upstream access_token)
                    query limit categories) = Ret envelope /\
        field "status" envelope = Some (PStr status) /\
        In status envelope_statuses /\
        (status = str "error" <-> blank query = true) /\
        length (calls_of (tool_search (create_server upstream access_token)
                            query limit categories))
          = (if blank query then 0 else 1)%nat) /\
    (exists envelope status,
        value_of (tool_get_article (create_server upstream access_token) uuid)
          = Ret envelope /\
        field "status" envelope = Some (PStr status) /\
        In status envelope_statuses /\
        (status = str "error" <-> blank uuid = true) /\
        length (calls_of (tool_get_article (create_server upstream access_token)
                            uuid))
          = (if blank uuid then 0 else 1)%nat).
Proof.
  intros upstream access_token query limit categories uuid.
  unfold value_of, calls_of, envelope_statuses. split.
  - destruct (blank query) eqn:Hb.
    + cbn [tool_search create_server]. rewrite search_blank by assumption.
      eexists. exists (str "error"). cbn. tauto.
    + rewrite tool_search_run by assumption. cbn [fst snd].
      set (results := recover [] _). eexists.
      exists (match results with [] => str "no_results" | _ :: _ => str "success" end).
      split; [reflexivity|]. split; [apply search_response_status|].
      rewrite length_app. cbn [length In].
      destruct results; repeat split; try tauto; try discriminate; lia.
  - destruct (blank uuid) eqn:Hb.
    + cbn [tool_get_article create_server].
      rewrite get_article_blank by assumption.
      eexists. exists (str "error"). cbn. tauto.
    + rewrite tool_get_article_run by assumption. cbn [fst snd].
      set (result := recover (PList []) _). eexists.
      exists (if truthy result then str "success" else str "no_results").
      split; [reflexivity|].
      split; [apply get_article_response_fields|].
      rewrite length_app. cbn [length In].
      destruct (truthy result); repeat split; try tauto; try discriminate; lia.
Qed.

(** X17. Every request the two tools send carries, as [api_token], the
    access token [create_server] was given (a missing token, [None],
    included); the requests of [search] also carry the three configured
    domains and the language [en]. *)
Theorem requests_carry_the_configuration :
  forall upstream access_token query limit categories uuid,
    Forall
      (fun rq =>
         param "api_token" rq = Some access_token /\
         param "domains" rq
           = Some (PList [PStr (str "nytimes.com"); PStr (str "bbc.com");
                          PStr (str "apnews.com")]) /\
         param "language" rq = Some (PList [PStr (str "en")]))
      (calls_of (tool_search (create_server upstream access_token)
                   query limit categories)) /\
    Forall
      (fun rq => req_params rq = [ (str "api_token", access_token) ])
      (calls_of (tool_get_article (create_server upstream access_token) uuid)).
Proof.
  intros upstream access_token query limit categories uuid.
  unfold calls_of. split.
  - destruct (blank query) eqn:Hb.
    + cbn [tool_search create_server]. rewrite search_blank by assumption.
      constructor.
    + rewrite tool_search_run by assumption. cbn [snd app].
      constructor; [|constructor].
      destruct categories as [[|c cs]|]; repeat split; reflexivity.
  - destruct (blank uuid) eqn:Hb.
    + cbn [tool_get_article create_server].
      rewrite get_article_blank by assumption. constructor.
    + rewrite tool_get_article_run by assumption. cbn [snd app].
      constructor; [reflexivity | constructor].
Qed.

(** X18. Neither the gateway nor the tool [search] cuts the list to the
    limit: when the upstream delivers an array of JSON objects, [count] is the
    number of items with a non-empty title and [results] has that many
    elements, whatever the limit asked for. *)
Theorem count_is_not_capped_by_limit :
  forall upstream access_token query limit categories items,
    blank query = false ->
    delivers
      (upstream (search_request (new_client access_token) query categories
                   (validated_limit limit))) items ->
    Forall (fun item => is_object item = true) items ->
    exists envelope results,
      value_of (tool_search (create_server upstream access_token)
                  query limit categories) = Ret envelope /\
      field "results" envelope = Some (PList results) /\
      length results = length (filter carries_title items) /\
      field "count" envelope
        = Some (PInt (Z.of_nat (length (filter carries_title items)))).
Proof.
  intros upstream access_token query limit categories items Hb Hd Hobj.
  destruct (collect_articles_filter search_article items
              search_article_keeps_title Hobj) as (results & Hrun & _ & _ & Hlen).
  unfold value_of. rewrite tool_search_run by assumption. cbn [fst].
  rewrite (search_news_response_delivers _ items Hd), Hrun. cbn [recover].
  eexists. exists results. split; [reflexivity|].
  split; [apply search_response_results|]. split; [exact Hlen|].
  rewrite search_response_count. now rewrite Hlen.
Qed.

Lemma count_is_not_capped_by_limit_witness :
  blank (str "Greenland") = false /\
  Forall (fun item => is_object item = true)
    [titled "A"; titled "B"; titled "C"; titled "D"] /\
  exists envelope results,
    value_of (tool_search
                (create_server
                   (always (reply_with 200
                      (data_payload [titled "A"; titled "B"; titled "C"; titled "D"])))
                   PNone)
                (str "Greenland") 1 None) = Ret envelope /\
    field "results" envelope = Some (PList results) /\
    length results
      = length (filter carries_title [titled "A"; titled "B"; titled "C"; titled "D"]) /\
    field "count" envelope
      = Some (PInt (Z.of_nat
                      (length (filter carries_title
                                 [titled "A"; titled "B"; titled "C"; titled "D"])))).
Proof.
  assert (Hobj : Forall (fun item => is_object item = true)
                   [titled "A"; titled "B"; titled "C"; titled "D"]).
  { repeat constructor. }
  split; [reflexivity|]. split; [exact Hobj|].
  apply (count_is_not_capped_by_limit
           (always (reply_with 200
              (data_payload [titled "A"; titled "B"; titled "C"; titled "D"])))
           PNone (str "Greenland") 1 None
           [titled "A"; titled "B"; titled "C"; titled "D"]).
  - reflexivity.
  - apply delivers_data_payload. lia.
  - exact Hobj.
Defined.

(** With limit 1 and four titled items upstream, [count] is 4. *)
Example four_results_for_limit_one :
  exists envelope,
    value_of (tool_search
                (create_server
                   (always (reply_with 200
                      (data_payload [titled "A"; titled "B"; titled "C"; titled "D"])))
                   PNone)
                (str "Greenland") 1 None) = Ret envelope /\
    field "count" envelope = Some (PInt 4).
Proof. eexists. split; reflexivity. Qed.
